(** * Willow: capability registry, dispatch facade and image classes

    A shallow embedding of [willow/image.py] together with the capability
    registry and the byte-signature detector it talks to, and the proofs of
    the properties stated about them.

    Layout: the classes; the registry ([Registry]); the Python object model
    ([Py]); the signature detector ([Filetype]); the functions of
    [willow/image.py] ([Willow]); a concrete set-up ([Demo]); the
    registration decorators ([Decorators]); the declared names, a backend
    class with methods of its own, a detector that may raise and set-ups
    with faults ([Attributes], [Backend], [Detector], [Faults]); then the
    facts about the resolver ([RegistryFacts]), about the detector
    ([FiletypeFacts], [DetectorFacts]), about the module ([WillowFacts],
    [AttributeFacts]) and about the decorators ([DecoratorFacts]), the cases
    of the test suite ([Tests]), the stated properties and further
    properties of the module. *)

From Stdlib Require Import ZArith Lia.
From stdpp Require Import base option list gmap strings.

Local Open Scope string_scope.
Local Open Scope list_scope.
Local Open Scope Z_scope.

(* ===================================================================== *)
(** ** Classes of [willow/image.py] *)
(* ===================================================================== *)

(** The classes defined in [willow/image.py], plus [PluginClass n] for an
    image class defined by a backend module (a subclass of [Image] that the
    registry knows under the name [n]). *)
Inductive ImageClass :=
| Image
| ImageBuffer
| RGBImageBuffer
| RGBAImageBuffer
| ImageFile
| JPEGImageFile
| PNGImageFile
| GIFImageFile
| BMPImageFile
| TIFFImageFile
| WebPImageFile
| PluginClass (n : string).

#[global] Instance ImageClass_eq_dec : EqDecision ImageClass.
Proof. solve_decision. Defined.

Definition ImageClass_code (c : ImageClass) : nat + string :=
  match c with
  | Image => inl 0%nat
  | ImageBuffer => inl 1%nat
  | RGBImageBuffer => inl 2%nat
  | RGBAImageBuffer => inl 3%nat
  | ImageFile => inl 4%nat
  | JPEGImageFile => inl 5%nat
  | PNGImageFile => inl 6%nat
  | GIFImageFile => inl 7%nat
  | BMPImageFile => inl 8%nat
  | TIFFImageFile => inl 9%nat
  | WebPImageFile => inl 10%nat
  | PluginClass n => inr n
  end.

Definition ImageClass_decode (x : nat + string) : ImageClass :=
  match x with
  | inl 0%nat => Image
  | inl 1%nat => ImageBuffer
  | inl 2%nat => RGBImageBuffer
  | inl 3%nat => RGBAImageBuffer
  | inl 4%nat => ImageFile
  | inl 5%nat => JPEGImageFile
  | inl 6%nat => PNGImageFile
  | inl 7%nat => GIFImageFile
  | inl 8%nat => BMPImageFile
  | inl 9%nat => TIFFImageFile
  | inl _ => WebPImageFile
  | inr n => PluginClass n
  end.

#[global] Instance ImageClass_countable : Countable ImageClass.
Proof.
  apply (inj_countable' ImageClass_code ImageClass_decode).
  intros []; reflexivity.
Defined.

(** [cls.__name__] *)
Definition class_name (c : ImageClass) : string :=
  match c with
  | Image => "Image"
  | ImageBuffer => "ImageBuffer"
  | RGBImageBuffer => "RGBImageBuffer"
  | RGBAImageBuffer => "RGBAImageBuffer"
  | ImageFile => "ImageFile"
  | JPEGImageFile => "JPEGImageFile"
  | PNGImageFile => "PNGImageFile"
  | GIFImageFile => "GIFImageFile"
  | BMPImageFile => "BMPImageFile"
  | TIFFImageFile => "TIFFImageFile"
  | WebPImageFile => "WebPImageFile"
  | PluginClass n => n
  end.

(** The direct base class ([None] for [Image], whose base is [object]). *)
Definition base_class (c : ImageClass) : option ImageClass :=
  match c with
  | Image => None
  | ImageBuffer => Some Image
  | RGBImageBuffer => Some ImageBuffer
  | RGBAImageBuffer => Some ImageBuffer
  | ImageFile => Some Image
  | JPEGImageFile | PNGImageFile | GIFImageFile
  | BMPImageFile | TIFFImageFile | WebPImageFile => Some ImageFile
  | PluginClass _ => Some Image
  end.

(** Method resolution order: the class, then its bases (single
    inheritance, depth at most three), up to [Image]. The base [object] is
    left out: the names it provides, all of the form [__x__], are outside of
    the model. *)
Definition mro (c : ImageClass) : list ImageClass :=
  match base_class c with
  | None => [c]
  | Some b =>
      match base_class b with
      | None => [c; b]
      | Some b' => [c; b; b']
      end
  end.

(** A Python function object, identified by its qualified name. *)
Abbreviation Func := string.

(* ===================================================================== *)
(** ** The capability registry *)
(* ===================================================================== *)

Module Registry.

(** A converter registration: a directed, costed edge of the type graph. *)
Record Edge := mkEdge {
  e_src : ImageClass;
  e_dst : ImageClass;
  e_cost : Z;
  e_impl : Func
}.

(** A resolved conversion path with the operation found at its end. *)
Record Resolved := mkResolved {
  r_path : list Edge;
  r_target : ImageClass;
  r_impl : Func;
  r_cost : Z
}.

Inductive RegError :=
| DuplicateOperationError
| InvalidCostError
| OperationNotFoundError.

(** Modelled from the spec: the registry object of [willow/registry.py]
    (section 3 and 4.1): the operation registrations, the converter edges
    in registration order, and the process-wide resolved-path cache, where
    [Some None] is the recorded not-found sentinel. *)
Record t := mkRegistry {
  operations : gmap (ImageClass * string) Func;
  converters : list Edge;
  cache : gmap (ImageClass * string) (option Resolved)
}.

Definition empty : t :=
  {| operations := ∅; converters := []; cache := ∅ |}.

(** Modelled from the spec: [register_operation(node_type, name, impl)]
    fails with DuplicateOperationError if [name] is already registered for
    [node_type]. *)
Definition register_operation (reg : t) (node_type : ImageClass)
    (name : string) (impl : Func) : RegError + t :=
  match operations reg !! (node_type, name) with
  | Some _ => inl DuplicateOperationError
  | None =>
      inr {| operations := <[(node_type, name) := impl]> (operations reg);
             converters := converters reg;
             cache := cache reg |}
  end.

(** Modelled from the spec: [register_converter(source_type, dest_type,
    cost, impl)]: the cost defaults to 1, must be at least 0
    (InvalidCostError otherwise); the edge is appended and replaces
    nothing. *)
Definition register_converter (reg : t) (source_type dest_type : ImageClass)
    (cost : option Z) (impl : Func) : RegError + t :=
  let c := default 1 cost in
  if c <? 0 then inl InvalidCostError
  else
    inr {| operations := operations reg;
           converters := converters reg ++ [mkEdge source_type dest_type c impl];
           cache := cache reg |}.

(** Modelled from the spec: [has_direct_operation(node_type, name)] is true
    iff [node_type] itself implements [name]. *)
Definition has_direct_operation (reg : t) (node_type : ImageClass)
    (name : string) : bool :=
  bool_decide (is_Some (operations reg !! (node_type, name))).

(** *** The path resolver *)

(** A frontier entry: a node type with the path that discovered it and
    that path's total cost. *)
Record Entry := mkEntry {
  q_cost : Z;
  q_node : ImageClass;
  q_path : list Edge
}.

Inductive Outcome :=
| Found (e : Entry)
| Unreachable
| OutOfFuel.

(** Pops the cheapest entry of the frontier; among entries of equal cost
    the one inserted first. The remaining entries keep their order. *)
Fixpoint extract_min (frontier : list Entry) : option (Entry * list Entry) :=
  match frontier with
  | [] => None
  | e :: rest =>
      match extract_min rest with
      | Some (m, rest') =>
          if q_cost m <? q_cost e then Some (m, e :: rest') else Some (e, rest)
      | None => Some (e, [])
      end
  end.

(** The entries discovered from [n], reached by path [p] at cost [d]: one
    per converter leaving [n], in registration order. *)
Definition expand (E : list Edge) (d : Z) (n : ImageClass) (p : list Edge)
    : list Entry :=
  (λ e, mkEntry (d + e_cost e) (e_dst e) (p ++ [e]))
    <$> filter (λ e, e_src e = n) E.

(** Modelled from the spec: section 4.2, Dijkstra's algorithm with early
    multi-target termination. The search stops as soon as it pops from the
    frontier a node type that implements the operation ([goal]); a popped
    node type that was visited before is skipped; otherwise the node type
    is marked visited and its outgoing converters are pushed. An empty
    frontier means no implementing type is reachable. *)
Fixpoint search (E : list Edge) (goal : ImageClass → bool) (fuel : nat)
    (frontier : list Entry) (visited : gset ImageClass) : Outcome :=
  match fuel with
  | O => OutOfFuel
  | S fuel' =>
      match extract_min frontier with
      | None => Unreachable
      | Some (m, rest) =>
          if decide (q_node m ∈ visited) then search E goal fuel' rest visited
          else if goal (q_node m) then Found m
          else search E goal fuel' (rest ++ expand E (q_cost m) (q_node m) (q_path m))
                      ({[q_node m]} ∪ visited)
      end
  end.

(** Every step of [search] either drops a frontier entry or visits a node
    type for the first time, so this many steps always suffice. *)
Definition search_fuel (E : list Edge) : nat := S (S (length E)).

(** Modelled from the spec: the resolution of one query, without the cache.
    The zero-length path is checked first ([has_direct_operation]), then
    the general resolver runs from the query node type. *)
Definition resolve (reg : t) (node_type : ImageClass) (name : string)
    : option Resolved :=
  match operations reg !! (node_type, name) with
  | Some impl => Some (mkResolved [] node_type impl 0)
  | None =>
      match search (converters reg) (λ c, has_direct_operation reg c name)
              (search_fuel (converters reg)) [mkEntry 0 node_type []] ∅ with
      | Found m =>
          match operations reg !! (q_node m, name) with
          | Some impl => Some (mkResolved (q_path m) (q_node m) impl (q_cost m))
          | None => None
          end
      | Unreachable | OutOfFuel => None
      end
  end.

(** Modelled from the spec: [find(node_type, operation_name)]: a cached
    answer is returned as recorded; otherwise the query is resolved and the
    result, found or not, is recorded in the cache. Fails with
    OperationNotFoundError if no implementing type is reachable. *)
Definition find (reg : t) (node_type : ImageClass) (name : string)
    : (RegError + Resolved) * t :=
  let answer (r : option Resolved) : RegError + Resolved :=
    match r with
    | Some r => inr r
    | None => inl OperationNotFoundError
    end in
  match cache reg !! (node_type, name) with
  | Some r => (answer r, reg)
  | None =>
      let r := resolve reg node_type name in
      (answer r,
       {| operations := operations reg;
          converters := converters reg;
          cache := <[(node_type, name) := r]> (cache reg) |})
  end.

(** *** What the resolver is specified against *)

(** [walk E a p b]: [p] is a chain of registered converters leading from
    node type [a] to node type [b]. *)
Inductive walk (E : list Edge) : ImageClass → list Edge → ImageClass → Prop :=
| walk_nil a : walk E a [] a
| walk_cons e p b :
    e ∈ E → walk E (e_dst e) p b → walk E (e_src e) (e :: p) b.

(** Total cost of a chain of converters. *)
Definition path_cost (p : list Edge) : Z :=
  foldr (λ e acc, e_cost e + acc) 0 p.

(** Costs are validated at registration, so a registry built through
    [register_converter] has no negative edge. *)
Definition costs_ok (reg : t) : Prop :=
  Forall (λ e, 0 ≤ e_cost e) (converters reg).

(** The cache only ever holds what the resolver computed (registrations
    are over before the first resolution). *)
Definition cache_ok (reg : t) : Prop :=
  ∀ k r, cache reg !! k = Some r → r = resolve reg k.1 k.2.

Definition well_formed (reg : t) : Prop := costs_ok reg ∧ cache_ok reg.

(** What a resolution is required to be: a chain of registered converters
    from the query node type to a node type implementing the operation,
    with its implementation and its total cost, such that no chain to any
    implementing node type is cheaper. *)
Definition optimal (reg : t) (node_type : ImageClass) (name : string)
    (r : Resolved) : Prop :=
  walk (converters reg) node_type (r_path r) (r_target r) ∧
  operations reg !! (r_target r, name) = Some (r_impl r) ∧
  r_cost r = path_cost (r_path r) ∧
  ∀ q t, walk (converters reg) node_type q t →
         is_Some (operations reg !! (t, name)) →
         r_cost r ≤ path_cost q.

Definition reachable (reg : t) (node_type : ImageClass) (name : string) : Prop :=
  ∃ q t, walk (converters reg) node_type q t ∧
         is_Some (operations reg !! (t, name)).

(** The loop invariant of [search] from start [s]: frontier entries are
    genuine paths from [s]; the start is visited or waiting in the frontier;
    every edge leaving the visited set has an entry at least as cheap as any
    path through it; no visited node type is a goal. *)
Definition search_inv (E : list Edge) (goal : ImageClass → bool) (s : ImageClass)
    (F : list Entry) (V : gset ImageClass) : Prop :=
  (∀ x, x ∈ F → walk E s (q_path x) (q_node x) ∧ path_cost (q_path x) = q_cost x) ∧
  (s ∈ V ∨ ∃ x, x ∈ F ∧ q_node x = s ∧ q_cost x ≤ 0) ∧
  (∀ q e, walk E s q (e_src e) → e ∈ E → e_src e ∈ V → e_dst e ∉ V →
          ∃ x, x ∈ F ∧ q_node x = e_dst e ∧ q_cost x ≤ path_cost q + e_cost e) ∧
  (∀ v, v ∈ V → goal v = false).

(** The number of steps [search] has left at most: the entries to pop and
    the converters still to push. *)
Definition search_measure (E : list Edge) (F : list Entry) (V : gset ImageClass)
    : nat :=
  (length F + length (filter (λ e, e_src e ∉ V) E))%nat.

(** A registry filled by a start-up sequence of registrations: the
    converters, then the operations, stopping at the first error. *)
Definition register_all (edges : list (ImageClass * ImageClass * option Z * Func))
    (ops : list (ImageClass * string * Func)) : RegError + t :=
  let reg_edges :=
    foldl (λ acc '(a, b, cost, impl),
             match acc with
             | inr reg => register_converter reg a b cost impl
             | inl err => inl err
             end) (inr empty) edges in
  foldl (λ acc '(c, name, impl),
           match acc with
           | inr reg => register_operation reg c name impl
           | inl err => inl err
           end) reg_edges ops.

(** A registry that was only registered into has valid costs and nothing
    cached. *)
Definition registered (acc : RegError + t) : Prop :=
  match acc with
  | inr reg => costs_ok reg ∧ cache reg = ∅
  | inl _ => True
  end.

End Registry.


(* ===================================================================== *)
(** ** The Python object model used by [willow/image.py] *)
(* ===================================================================== *)

Module Py.

(** Object identity. *)
Abbreviation loc := positive.

(** Python values. Functions are function objects named by their qualified
    name; a bound method pairs a function with its receiver; [VWrapper] is
    the closure built by [Image.__getattr__], holding the variables it
    captures. *)
#[local] Unset Elimination Schemes.
Inductive Val :=
| VNone
| VBool (b : bool)
| VInt (z : Z)
| VStr (s : string)
| VBytes (bs : list Byte.byte)
| VTuple (vs : list Val)
| VClass (c : ImageClass)
| VRef (l : loc)
| VFunc (f : Func)
| VBound (f : Func) (receiver : Val)
| VWrapper (operation : Func) (conversion_path : list (Func * Val)) (self : loc).
#[local] Set Elimination Schemes.

(** Exception classes: the built-in ones the module meets, the two the
    module defines, and [UserError n b] for a class [n] defined elsewhere
    with base class [b]. *)
Inductive ExnClass :=
| Exception
| SystemError
| TypeError
| LookupError
| AttributeError
| ValueError
| IOError
| UnrecognisedImageFormatError
| BadImageOperationError
| UserError (n : string) (base : ExnClass).

#[global] Instance ExnClass_eq_dec : EqDecision ExnClass.
Proof. solve_decision. Defined.

Fixpoint exn_mro (c : ExnClass) : list ExnClass :=
  match c with
  | Exception => [Exception]
  | UnrecognisedImageFormatError =>
      [UnrecognisedImageFormatError; IOError; Exception]
  | BadImageOperationError =>
      [BadImageOperationError; ValueError; Exception]
  | UserError n b => UserError n b :: exn_mro b
  | builtin => [builtin; Exception]
  end.

Record Exn := mkExn { exn_class : ExnClass; exn_msg : string }.

(** [isinstance(e, c)], which is what an [except c:] clause tests. *)
Definition isinstance (e : Exn) (c : ExnClass) : bool :=
  bool_decide (c ∈ exn_mro (exn_class e)).

(** An instance: its class and its [__dict__]. *)
Record Obj := mkObj { ob_type : ImageClass; ob_dict : gmap string Val }.

(** What code outside of this module can read and change: the objects and
    the warnings issued so far (category, message). *)
Record World := mkWorld {
  heap : gmap loc Obj;
  warnings : list (string * string)
}.

(** A call made to a function object. *)
Record Call := mkCall {
  callee : Func;
  call_args : list Val;
  call_kwargs : list (string * Val)
}.

(** The state threaded through the module's code: the world, and the
    record of the calls made so far, oldest first. *)
Record State := mkState { world : World; calls : list Call }.

(** Computations: they read and change the state and either return a
    value or raise. *)
Definition M (A : Type) : Type := State → (Exn + A) * State.

Definition ret {A} (a : A) : M A := λ st, (inr a, st).

Definition raise {A} (c : ExnClass) (msg : string) : M A :=
  λ st, (inl (mkExn c msg), st).

Definition reraise {A} (e : Exn) : M A := λ st, (inl e, st).

Definition bind {A B} (m : M A) (k : A → M B) : M B :=
  λ st, match m st with
        | (inr a, st') => k a st'
        | (inl e, st') => (inl e, st')
        end.

(** What the module's collaborators provide.
    - [find_operation]: [registry.find_operation(cls, name)], which returns
      the tuple (operation, class, conversion path, cost) or raises;
    - [call_function]: the meaning of calling a function object;
    - [guess_extension]: [filetype.guess_extension] on a byte source, for
      which it returns a format or [None] (a detector that raises is the
      matter of [Detector.Image_open_detecting]);
    - [plugin_class_dict]: the attributes of the classes defined by
      backends ([inl] a plain value, [inr] a function). *)
Record Env := mkEnv {
  find_operation :
    ImageClass → string → Exn + (Func * Val * list (Func * Val) * Val);
  call_function :
    Func → list Val → list (string * Val) → World → (Exn + Val) * World;
  guess_extension : Val → option string;
  plugin_class_dict : string → string → option (Val + Func)
}.

End Py.

Declare Scope py_scope.
Delimit Scope py_scope with py.
Notation "'let*' x ':=' m 'in' k" :=
  (Py.bind m (λ x, k))
  (at level 10, x pattern, m at level 100, k at level 200) : py_scope.
Notation "m ';;;' k" :=
  (Py.bind m (λ _, k))
  (at level 100, k at level 200, right associativity) : py_scope.
Local Open Scope py_scope.

(* ===================================================================== *)
(** ** The byte-signature detector *)
(* ===================================================================== *)

Module Filetype.
Import Py.

(** A magic signature: the expected leading bytes, [None] standing for a
    byte that may be anything. *)
Abbreviation Signature := (list (option Byte.byte)).

Fixpoint matches (sig : Signature) (window : list Byte.byte) : bool :=
  match sig, window with
  | [], _ => true
  | _ :: _, [] => false
  | None :: sig', _ :: window' => matches sig' window'
  | Some b :: sig', b' :: window' => Byte.eqb b b' && matches sig' window'
  end.

Definition exact (bs : list Byte.byte) : Signature := Some <$> bs.

(** The [extension] attribute of the image types of [filetype.types.image]
    that [willow/image.py] uses as the keys of its initial-class table.
    The test suite fixes the one for JPEG: a JPEG header is guessed as
    ['jpg']. *)
Definition Jpeg_extension : string := "jpg".
Definition Png_extension : string := "png".
Definition Gif_extension : string := "gif".
Definition Bmp_extension : string := "bmp".
Definition Tiff_extension : string := "tif".
Definition Webp_extension : string := "webp".

(** Modelled from the spec: the table of known magic signatures of the
    byte-signature detector (sections 4.4 and 6), which is the external
    [filetype] package. It holds the signatures the spec and the tests
    name (PNG, JPEG, GIF), the usual magic numbers of the other formats
    with an initial class (BMP, TIFF, WebP), and two formats that are
    recognised but have no initial class (PSD, ICO). *)
Definition signatures : list (Signature * string) :=
  [ (exact [Byte.xff; Byte.xd8; Byte.xff], Jpeg_extension);
    (exact [Byte.x89; Byte.x50; Byte.x4e; Byte.x47;
            Byte.x0d; Byte.x0a; Byte.x1a; Byte.x0a], Png_extension);
    (exact (String.list_byte_of_string "GIF87a"), Gif_extension);
    (exact (String.list_byte_of_string "GIF89a"), Gif_extension);
    (exact (String.list_byte_of_string "BM"), Bmp_extension);
    (exact [Byte.x49; Byte.x49; Byte.x2a; Byte.x00], Tiff_extension);
    (exact [Byte.x4d; Byte.x4d; Byte.x00; Byte.x2a], Tiff_extension);
    (exact (String.list_byte_of_string "RIFF") ++ [None; None; None; None]
       ++ exact (String.list_byte_of_string "WEBP"), Webp_extension);
    (exact (String.list_byte_of_string "8BPS"), "psd");
    (exact [Byte.x00; Byte.x00; Byte.x01; Byte.x00], "ico") ].

(** The size of the leading window that is inspected. *)
Definition window_size : nat := 262.

(** The longest of the given signatures; the earliest one among those of
    the same length. *)
Fixpoint longest (hits : list (Signature * string)) : option (Signature * string) :=
  match hits with
  | [] => None
  | h :: hits' =>
      match longest hits' with
      | Some h' => if (length h.1 <? length h'.1)%nat then Some h' else Some h
      | None => Some h
      end
  end.

(** Modelled from the spec: [sniff(bytes) -> format_tag | none] (section
    6): the leading window is compared with every signature of the table
    and the longest match wins; no match gives none. *)
Definition sniff (bs : list Byte.byte) : option string :=
  let window := take window_size bs in
  snd <$> longest (filter (λ e, matches e.1 window = true) signatures).

(** Modelled from the spec: [filetype.guess_extension(f)] on a byte
    source, which is given by the bytes it holds. *)
Definition guess_extension (f : Val) : option string :=
  match f with
  | VBytes bs => sniff bs
  | _ => None
  end.

End Filetype.

(* ===================================================================== *)
(** ** [willow/image.py] *)
(* ===================================================================== *)

Module Willow.
Import Py.

(** An attribute found in a class body. *)
Inductive ClassAttr :=
| CData (v : Val)
| CFunction (f : Func)
| CClassMethod (f : Func)
| CStaticMethod (f : Func)
| CProperty (fget : Func).

(** [INITIAL_IMAGE_CLASSES]: a mapping of image formats to their initial
    class. *)
Definition INITIAL_IMAGE_CLASSES : gmap string ImageClass :=
  list_to_map
    [ (Filetype.Jpeg_extension, JPEGImageFile);
      (Filetype.Png_extension, PNGImageFile);
      (Filetype.Gif_extension, GIFImageFile);
      (Filetype.Bmp_extension, BMPImageFile);
      (Filetype.Tiff_extension, TIFFImageFile);
      (Filetype.Webp_extension, WebPImageFile) ].

(** The characters ['], the double quote and the backslash. *)
Definition single_quote : Ascii.ascii := Ascii.ascii_of_nat 39.
Definition double_quote : Ascii.ascii := Ascii.ascii_of_nat 34.
Definition backslash : Ascii.ascii := Ascii.ascii_of_nat 92.

(** The lower-case hexadecimal digit of a number below 16. *)
Definition hex_digit (n : N) : Ascii.ascii :=
  default (Ascii.ascii_of_nat 48) (String.get (N.to_nat n) "0123456789abcdef").

(** How [repr] writes one character inside the quotes [quote]: the quote
    and the backslash are escaped, tab, line feed and carriage return have
    their letter, the other control characters are written in hexadecimal,
    and every other character stands for itself. *)
Definition repr_char (quote c : Ascii.ascii) : string :=
  let n := Ascii.N_of_ascii c in
  if Ascii.eqb c quote || Ascii.eqb c backslash then String backslash (String c "")
  else if (n =? 9)%N then "\t"
  else if (n =? 10)%N then "\n"
  else if (n =? 13)%N then "\r"
  else if (n <? 32)%N || (n =? 127)%N then
    "\x" +:+ String (hex_digit (n / 16)%N) (String (hex_digit (n mod 16)%N) "")
  else String c "".

Fixpoint repr_chars (quote : Ascii.ascii) (s : string) : string :=
  match s with
  | EmptyString => ""
  | String c s' => repr_char quote c +:+ repr_chars quote s'
  end.

Fixpoint has_char (c : Ascii.ascii) (s : string) : bool :=
  match s with
  | EmptyString => false
  | String c' s' => Ascii.eqb c c' || has_char c s'
  end.

(** [repr] of a string, which is what [%r] formats: in single quotes,
    unless the string holds a single quote and no double quote. Exact for
    strings of ASCII characters. *)
Definition repr_str (s : string) : string :=
  let quote :=
    if has_char single_quote s && negb (has_char double_quote s)
    then double_quote else single_quote in
  String quote (repr_chars quote s +:+ String quote "").

(** [repr(INITIAL_IMAGE_CLASSES)] *)
Definition repr_INITIAL_IMAGE_CLASSES : string :=
  "{'jpg': <class 'willow.image.JPEGImageFile'>, "
  +:+ "'png': <class 'willow.image.PNGImageFile'>, "
  +:+ "'gif': <class 'willow.image.GIFImageFile'>, "
  +:+ "'bmp': <class 'willow.image.BMPImageFile'>, "
  +:+ "'tif': <class 'willow.image.TIFFImageFile'>, "
  +:+ "'webp': <class 'willow.image.WebPImageFile'>}".

(** The formats [Image.save] accepts. *)
Definition save_formats : list string :=
  ["jpeg"; "png"; "gif"; "bmp"; "tiff"; "webp"].

Section WithEnv.
Context (env : Env).

(** *** Classes and their attributes *)

(** The body of each class: the names it defines. The names that every
    class body gets without writing them ([__module__], [__doc__] and the
    like) are outside of the model. *)
Definition class_dict (c : ImageClass) (name : string) : option ClassAttr :=
  match c with
  | Image =>
      (list_to_map
         [ ("check", CClassMethod "Image.check");
           ("operation", CStaticMethod "Image.operation");
           ("converter_to", CStaticMethod "Image.converter_to");
           ("converter_from", CStaticMethod "Image.converter_from");
           ("__getattr__", CFunction "Image.__getattr__");
           ("open", CClassMethod "Image.open");
           ("save", CFunction "Image.save") ] : gmap string ClassAttr) !! name
  | ImageBuffer =>
      (list_to_map
         [ ("__init__", CFunction "ImageBuffer.__init__");
           ("get_size", CFunction "ImageBuffer.get_size") ]
       : gmap string ClassAttr) !! name
  | RGBImageBuffer =>
      (list_to_map
         [ ("mode", CData (VStr "RGB"));
           ("has_alpha", CFunction "RGBImageBuffer.has_alpha");
           ("has_animation", CFunction "RGBImageBuffer.has_animation") ]
       : gmap string ClassAttr) !! name
  | RGBAImageBuffer =>
      (list_to_map
         [ ("mode", CData (VStr "RGBA"));
           ("has_alpha", CFunction "RGBAImageBuffer.has_alpha");
           ("has_animation", CFunction "RGBAImageBuffer.has_animation") ]
       : gmap string ClassAttr) !! name
  | ImageFile =>
      (list_to_map
         [ ("format_name", CData VNone);
           ("original_format", CProperty "ImageFile.original_format");
           ("__init__", CFunction "ImageFile.__init__") ]
       : gmap string ClassAttr) !! name
  | JPEGImageFile =>
      if decide (name = "format_name") then Some (CData (VStr "jpeg")) else None
  | PNGImageFile =>
      if decide (name = "format_name") then Some (CData (VStr "png")) else None
  | GIFImageFile =>
      if decide (name = "format_name") then Some (CData (VStr "gif")) else None
  | BMPImageFile =>
      if decide (name = "format_name") then Some (CData (VStr "bmp")) else None
  | TIFFImageFile =>
      if decide (name = "format_name") then Some (CData (VStr "tiff")) else None
  | WebPImageFile =>
      if decide (name = "format_name") then Some (CData (VStr "webp")) else None
  | PluginClass n =>
      match plugin_class_dict env n name with
      | Some (inl v) => Some (CData v)
      | Some (inr f) => Some (CFunction f)
      | None => None
      end
  end.

(** Lookup of a name along the method resolution order. *)
Definition class_lookup (c : ImageClass) (name : string) : option ClassAttr :=
  head (omap (λ k, class_dict k name) (mro c)).

(** *** Primitives *)

(** [type(self)] *)
Definition type_of (self : loc) : M ImageClass :=
  λ st, match heap (world st) !! self with
        | Some o => (inr (ob_type o), st)
        | None => (inl (mkExn SystemError "dangling reference"), st)
        end.

(** [warnings.warn(message, category)], under the default filters, which
    never turn a warning of this category into an exception. *)
Definition warnings_warn (message category : string) : M unit :=
  λ st, (inr tt,
         mkState (mkWorld (heap (world st))
                          (warnings (world st) ++ [(category, message)]))
                 (calls st)).

(** A call to a function object: it is recorded, and the function runs
    on the world. *)
Definition call_logged (f : Func) (args : list Val)
    (kwargs : list (string * Val)) : M Val :=
  λ st, let '(r, w) := call_function env f args kwargs (world st) in
        (r, mkState w (calls st ++ [mkCall f args kwargs])).

(** *** class Image *)

(** [Image.check] *)
Definition Image_check (cls : ImageClass) : M Val := ret VNone.

(** The loop of the closure [wrapper] of [Image.__getattr__]:
    [for converter, _ in conversion_path: image = converter(image)]. *)
Fixpoint run_converters (conversion_path : list (Func * Val)) (image : Val)
    : M Val :=
  match conversion_path with
  | [] => ret image
  | (converter, _) :: rest =>
      let* image := call_logged converter [image] [] in
      run_converters rest image
  end.

(** The closure [wrapper] of [Image.__getattr__], called with positional
    arguments [args] and keyword arguments [kwargs], with
    the variables it captures made explicit. *)
Definition wrapper (operation : Func) (conversion_path : list (Func * Val))
    (self : loc) (args : list Val) (kwargs : list (string * Val)) : M Val :=
  let* image := run_converters conversion_path (VRef self) in
  call_logged operation (image :: args) kwargs.

(** [Image.__getattr__(self, attr)] *)
Definition Image___getattr__ (self : loc) (attr : string) : M Val :=
  let* cls := type_of self in
  match find_operation env cls attr with
  | inr (operation, _, conversion_path, _) =>
      ret (VWrapper operation conversion_path self)
  | inl e =>
      if isinstance e LookupError then
        (* Operation doesn't exist *)
        raise AttributeError
          (repr_str (class_name cls) +:+ " object has no attribute "
           +:+ repr_str attr)
      else reraise e
  end.

(** Attribute access on an instance for a name that is not a property:
    the instance [__dict__], then the classes along the method
    resolution order, then [__getattr__]. *)
Definition lookup_attr (self : loc) (name : string) : M Val :=
  λ st, match heap (world st) !! self with
        | None => (inl (mkExn SystemError "dangling reference"), st)
        | Some o =>
            match ob_dict o !! name with
            | Some v => (inr v, st)
            | None =>
                match class_lookup (ob_type o) name with
                | Some (CData v) => (inr v, st)
                | Some (CFunction f) => (inr (VBound f (VRef self)), st)
                | Some (CClassMethod f) =>
                    (inr (VBound f (VClass (ob_type o))), st)
                | Some (CStaticMethod f) => (inr (VFunc f), st)
                | Some (CProperty _) | None => Image___getattr__ self name st
                end
            end
        end.

(** [ImageFile.original_format], the getter of the property. *)
Definition ImageFile_original_format (self : loc) : M Val :=
  warnings_warn
    "Image.original_format has been renamed to Image.format_name."
    "RemovedInWillow05Warning" ;;;
  lookup_attr self "format_name".

(** [getattr(self, name)], that is [self.name]: a property of the class
    comes first, then [lookup_attr]. The only property of the module is
    [original_format]. *)
Definition py_getattr (self : loc) (name : string) : M Val :=
  let* cls := type_of self in
  match class_lookup cls name with
  | Some (CProperty _) => ImageFile_original_format self
  | _ => lookup_attr self name
  end.

(** [self.name = v]: refused for a property (none has a setter), else
    stored in the instance [__dict__]. *)
Definition py_setattr (self : loc) (name : string) (v : Val) : M unit :=
  let* cls := type_of self in
  match class_lookup cls name with
  | Some (CProperty _) => raise AttributeError "can't set attribute"
  | _ =>
      λ st, (inr tt,
             mkState
               (mkWorld
                  (alter (λ o, mkObj (ob_type o) (<[name := v]> (ob_dict o)))
                         self (heap (world st)))
                  (warnings (world st)))
               (calls st))
  end.

(** *** class ImageBuffer and its subclasses *)

(** [ImageBuffer.__init__(self, size, data)] *)
Definition ImageBuffer___init__ (self : loc) (size data : Val) : M Val :=
  py_setattr self "size" size ;;;
  py_setattr self "data" data ;;;
  ret VNone.

(** [ImageBuffer.get_size(self)] *)
Definition ImageBuffer_get_size (self : loc) : M Val :=
  py_getattr self "size".

(** [RGBImageBuffer.has_alpha(self)] *)
Definition RGBImageBuffer_has_alpha (self : loc) : M Val :=
  ret (VBool false).

(** [RGBImageBuffer.has_animation(self)] *)
Definition RGBImageBuffer_has_animation (self : loc) : M Val :=
  ret (VBool false).

(** [RGBAImageBuffer.has_alpha(self)] *)
Definition RGBAImageBuffer_has_alpha (self : loc) : M Val :=
  ret (VBool true).

(** [RGBAImageBuffer.has_animation(self)] *)
Definition RGBAImageBuffer_has_animation (self : loc) : M Val :=
  ret (VBool false).

(** *** class ImageFile *)

(** [ImageFile.__init__(self, f)] *)
Definition ImageFile___init__ (self : loc) (f : Val) : M Val :=
  py_setattr self "f" f ;;;
  ret VNone.

(** *** Instances *)

(** A new, empty instance of [cls] at an unused location. *)
Definition allocate (cls : ImageClass) : M loc :=
  λ st, let l := fresh (dom (heap (world st))) in
        (inr l,
         mkState (mkWorld (<[l := mkObj cls ∅]> (heap (world st)))
                          (warnings (world st)))
                 (calls st)).

(** A call of the class [cls] with [args]: a new instance, initialised by the [__init__] that the
    class inherits. A class of a backend is built by the backend. *)
Definition instantiate (cls : ImageClass) (args : list Val) : M Val :=
  match cls with
  | PluginClass n => call_logged n args []
  | Image =>
      match args with
      | [] => let* l := allocate cls in ret (VRef l)
      | _ => raise TypeError "Image() takes no arguments"
      end
  | ImageBuffer | RGBImageBuffer | RGBAImageBuffer =>
      match args with
      | [size; data] =>
          let* l := allocate cls in
          ImageBuffer___init__ l size data ;;;
          ret (VRef l)
      | _ => raise TypeError "__init__() takes exactly 3 arguments"
      end
  | ImageFile | JPEGImageFile | PNGImageFile | GIFImageFile
  | BMPImageFile | TIFFImageFile | WebPImageFile =>
      match args with
      | [f] =>
          let* l := allocate cls in
          ImageFile___init__ l f ;;;
          ret (VRef l)
      | _ => raise TypeError "__init__() takes exactly 2 arguments"
      end
  end.

(** A call of the value [f] with positional arguments [args] and keyword
    arguments [kwargs]. A class called with keyword arguments is left to the
    environment. *)
Definition py_call (f : Val) (args : list Val) (kwargs : list (string * Val))
    : M Val :=
  match f with
  | VFunc f => call_logged f args kwargs
  | VBound f receiver => call_logged f (receiver :: args) kwargs
  | VWrapper operation conversion_path self =>
      wrapper operation conversion_path self args kwargs
  | VClass cls =>
      match kwargs with
      | [] => instantiate cls args
      | _ => call_logged (class_name cls) args kwargs
      end
  | _ => raise TypeError "object is not callable"
  end.

(** *** class Image, continued *)

(** [Image.save(self, image_format, output)] *)
Definition Image_save (self : loc) (image_format : string) (output : Val)
    : M Val :=
  (* Get operation name *)
  if bool_decide (image_format ∉ save_formats) then
    raise ValueError ("Unknown image format: " +:+ image_format)
  else
    let operation_name := "save_as_" +:+ image_format in
    let* f := py_getattr self operation_name in
    py_call f [output] [].

(** Truth value of [image_format], a string or [None]. *)
Definition truthy (image_format : option string) : bool :=
  match image_format with
  | Some s => negb (String.eqb s "")
  | None => false
  end.

(** [Image.open(cls, f)] *)
Definition Image_open (cls : ImageClass) (f : Val) : M Val :=
  (* Detect image format *)
  let image_format := guess_extension env f in
  (* Find initial class *)
  let initial_class := image_format ≫= (λ k, INITIAL_IMAGE_CLASSES !! k) in
  match initial_class with
  | None =>
      if truthy image_format then
        raise UnrecognisedImageFormatError
          ("Cannot load " +:+ default "" image_format +:+ " images ("
           +:+ repr_INITIAL_IMAGE_CLASSES +:+ ")")
      else
        raise UnrecognisedImageFormatError "Unknown image format"
  | Some initial_class => instantiate initial_class [f]
  end.

(** *** What the dispatch is specified against *)

(** [converts w image fs cs image' w']: starting in world [w], each of
    the converters [fs] in turn is applied to the handle that the one
    before it returned, the first one to [image]; each returns normally;
    the last returns [image'] and leaves world [w']; [cs] lists the
    calls this makes, in order. *)
Inductive converts : World → Val → list Func → list Call → Val → World → Prop :=
| converts_done w image : converts w image [] [] image w
| converts_step w image converter rest image' w' cs image'' w'' :
    call_function env converter [image] [] w = (inr image', w') →
    converts w' image' rest cs image'' w'' →
    converts w image (converter :: rest)
             (mkCall converter [image] [] :: cs) image'' w''.

End WithEnv.

(** The classes that are, or derive from, [ImageFile]. *)
Definition image_file_classes : list ImageClass :=
  [ImageFile; JPEGImageFile; PNGImageFile; GIFImageFile;
   BMPImageFile; TIFFImageFile; WebPImageFile].

(** The classes that are, or derive from, [ImageBuffer]. *)
Definition image_buffer_classes : list ImageClass :=
  [ImageBuffer; RGBImageBuffer; RGBAImageBuffer].

(** The state after one more warning. *)
Definition warned (message category : string) (st : State) : State :=
  mkState (mkWorld (heap (world st))
                   (warnings (world st) ++ [(category, message)]))
          (calls st).

(** The state after an object was added or replaced at [l]. *)
Definition stored (l : loc) (o : Obj) (st : State) : State :=
  mkState (mkWorld (<[l := o]> (heap (world st))) (warnings (world st)))
          (calls st).

End Willow.

(* ===================================================================== *)
(** ** A concrete set-up *)
(* ===================================================================== *)

Module Demo.
Import Py.

(** A small set-up in the shape the backends register: a JPEG file can be
    decoded by two backends, either of which can produce a raw buffer, and
    only the first backend can resize and save. *)
Definition registered_converters
    : list (ImageClass * ImageClass * option Z * Func) :=
  [ (JPEGImageFile, PluginClass "PillowImage", Some 100, "PillowImage.open");
    (JPEGImageFile, PluginClass "WandImage", Some 20, "WandImage.open");
    (PluginClass "PillowImage", RGBImageBuffer, Some 5, "PillowImage.to_buffer_rgb");
    (PluginClass "WandImage", RGBImageBuffer, None, "WandImage.to_buffer_rgb");
    (PluginClass "WandImage", PluginClass "WandImage", Some 0, "WandImage.copy");
    (RGBImageBuffer, PluginClass "PillowImage", Some 0, "PillowImage.from_buffer_rgb") ].

Definition registered_operations : list (ImageClass * string * Func) :=
  [ (PluginClass "PillowImage", "resize", "PillowImage.resize");
    (PluginClass "PillowImage", "save_as_jpeg", "PillowImage.save_as_jpeg");
    (RGBImageBuffer, "get_size", "ImageBuffer.get_size");
    (RGBAImageBuffer, "get_size", "ImageBuffer.get_size") ].

Definition registry : Registry.t :=
  match Registry.register_all registered_converters registered_operations with
  | inr reg => reg
  | inl _ => Registry.empty
  end.

(** [registry.find_operation] as the dispatch facade sees it, answered by
    the resolver; the not-found error is a [LookupError]. *)
Definition registry_find_operation (reg : Registry.t) (cls : ImageClass) (name : string)
    : Exn + (Func * Val * list (Func * Val) * Val) :=
  match Registry.resolve reg cls name with
  | Some r =>
      inr (Registry.r_impl r, VClass (Registry.r_target r),
           (λ e, (Registry.e_impl e, VClass (Registry.e_dst e)))
             <$> Registry.r_path r,
           VInt (Registry.r_cost r))
  | None =>
      inl (mkExn (UserError "OperationNotFoundError" LookupError)
                 ("no path to " +:+ name))
  end.

(** Backends for the example: a converter builds a new object of its
    destination class that remembers where it came from; any other
    function returns its name and arguments. *)
Definition backend_call (f : Func) (args : list Val)
    (kwargs : list (string * Val)) (w : World) : (Exn + Val) * World :=
  match list_find (λ e, Registry.e_impl e = f) (Registry.converters registry) with
  | Some (_, e) =>
      let l := fresh (dom (heap w)) in
      (inr (VRef l),
       mkWorld (<[l := mkObj (Registry.e_dst e)
                             (<["source" := default VNone (head args)]> ∅)]> (heap w))
               (warnings w))
  | None => (inr (VTuple (VStr f :: args)), w)
  end.

Definition env : Env :=
  mkEnv (registry_find_operation registry) backend_call Filetype.guess_extension
        (λ _ _, None).

(** An environment with the signature detector above and anything else
    for the rest. *)
Definition sniffing_env
    (find_op : ImageClass → string → Exn + (Func * Val * list (Func * Val) * Val))
    (call : Func → list Val → list (string * Val) → World → (Exn + Val) * World)
    (plugins : string → string → option (Val + Func)) : Env :=
  mkEnv find_op call Filetype.guess_extension plugins.

Definition empty_state : State := mkState (mkWorld ∅ []) [].

(** The leading bytes of a JPEG, a PNG and a GIF file, and bytes that are
    no image. *)
Definition jpeg_header : list Byte.byte :=
  [Byte.xff; Byte.xd8; Byte.xff; Byte.xe0; Byte.x00; Byte.x10]
    ++ String.list_byte_of_string "JFIF" ++ [Byte.x00].
Definition png_header : list Byte.byte :=
  [Byte.x89] ++ String.list_byte_of_string "PNG"
    ++ [Byte.x0d; Byte.x0a; Byte.x1a; Byte.x0a].
Definition gif_header : list Byte.byte := String.list_byte_of_string "GIF89a".
Definition not_an_image : list Byte.byte :=
  String.list_byte_of_string "Not an image".

(** The state after a JPEG file was opened: one [JPEGImageFile] object. *)
Definition jpeg_opened : State :=
  (Willow.Image_open env Image (VBytes jpeg_header) empty_state).2.

(** The state of the two [TestSaveImage] cases: a bare [Image] whose
    attribute [save_as_jpeg] is a mock. *)
Definition mocked : State :=
  mkState (mkWorld {[ 1%positive := mkObj Image {[ "save_as_jpeg" := VFunc "mock" ]} ]} [])
          [].

(** The conversion path the example registry resolves for [resize] on a
    JPEG file, as [find_operation] hands it to the facade. *)
Definition resize_path : list (Func * Val) :=
  [ ("WandImage.open", VClass (PluginClass "WandImage"));
    ("WandImage.to_buffer_rgb", VClass RGBImageBuffer);
    ("PillowImage.from_buffer_rgb", VClass (PluginClass "PillowImage")) ].

End Demo.

(* ===================================================================== *)
(** ** The registration decorators of [class Image] *)
(* ===================================================================== *)

Module Decorators.
Import Py.

(** What the decorators read and change: the [__dict__] of every function
    object, and the list objects that attributes may refer to (a list is an
    object of its own, reached through [VRef]). A function that was never
    given an attribute has no entry. *)
Record FState := mkFState {
  func_dict : gmap Func (gmap string Val);
  list_objects : gmap loc (list Val)
}.

(** [getattr(func, name)] for the names the decorators use, which are found
    in the function's [__dict__] or not at all. *)
Definition func_getattr (st : FState) (func : Func) (name : string) : option Val :=
  func_dict st !! func ≫= (λ d, d !! name).

(** [hasattr(func, name)] *)
Definition func_hasattr (st : FState) (func : Func) (name : string) : bool :=
  bool_decide (is_Some (func_getattr st func name)).

(** [func.name = v] *)
Definition func_setattr (func : Func) (name : string) (v : Val) (st : FState)
    : FState :=
  mkFState (<[func := <[name := v]> (default ∅ (func_dict st !! func))]> (func_dict st))
           (list_objects st).

(** [func.name = []]: a new list object, referred to by the attribute. *)
Definition func_setattr_new_list (func : Func) (name : string) (st : FState)
    : FState :=
  let l := fresh (dom (list_objects st)) in
  func_setattr func name (VRef l)
    (mkFState (func_dict st) (<[l := []]> (list_objects st))).

(** [target.extend(items)], and [target.append(x)] as [items] being the one
    item [x]: the list object is changed in place; a value that is no list
    has no such [method]. *)
Definition list_extend (method : string) (target : option Val) (items : list Val)
    (st : FState) : Exn + FState :=
  match target with
  | Some (VRef l) =>
      match list_objects st !! l with
      | Some xs =>
          inr (mkFState (func_dict st) (<[l := xs ++ items]> (list_objects st)))
      | None =>
          inl (mkExn AttributeError ("object has no attribute '" +:+ method +:+ "'"))
      end
  | _ => inl (mkExn AttributeError ("object has no attribute '" +:+ method +:+ "'"))
  end.

(** [Image.operation(func)] *)
Definition Image_operation (func : Func) (st : FState) : (Exn + Func) * FState :=
  (inr func, func_setattr func "_willow_operation" (VBool true) st).

(** The closure [wrapper(func)] of [Image.converter_to], with the variables
    it captures made explicit. *)
Definition converter_to_wrapper (to_class cost : Val) (func : Func) (st : FState)
    : (Exn + Func) * FState :=
  (inr func,
   func_setattr func "_willow_converter_to" (VTuple [to_class; cost]) st).

(** [Image.converter_to(to_class, cost=None)]: returns the closure. *)
Definition Image_converter_to (to_class : Val) (cost : option Val)
    : Func → FState → (Exn + Func) * FState :=
  converter_to_wrapper to_class (default VNone cost).

(** The first argument of [Image.converter_from]: one class, or a list of
    classes ([isinstance(from_class, list)]). *)
Inductive FromArg :=
| FromOne (from_class : Val)
| FromList (from_classes : list Val).

(** The closure [wrapper(func)] of [Image.converter_from], with the
    variables it captures made explicit. *)
Definition converter_from_wrapper (from_class : FromArg) (cost : Val)
    (func : Func) (st : FState) : (Exn + Func) * FState :=
  let st1 :=
    if negb (func_hasattr st func "_willow_converter_from") then
      func_setattr_new_list func "_willow_converter_from" st
    else st in
  let target := func_getattr st1 func "_willow_converter_from" in
  let result :=
    match from_class with
    | FromList from_classes =>
        list_extend "extend" target ((λ sc, VTuple [sc; cost]) <$> from_classes) st1
    | FromOne from_class =>
        list_extend "append" target [VTuple [from_class; cost]] st1
    end in
  match result with
  | inr st2 => (inr func, st2)
  | inl e => (inl e, st1)
  end.

(** [Image.converter_from(from_class, cost=None)]: returns the closure. *)
Definition Image_converter_from (from_class : FromArg) (cost : option Val)
    : Func → FState → (Exn + Func) * FState :=
  converter_from_wrapper from_class (default VNone cost).

(** A decorator line above a function definition. *)
Inductive Decorator :=
| DOperation
| DConverterTo (to_class : Val) (cost : option Val)
| DConverterFrom (from_class : FromArg) (cost : option Val).

Definition apply_decorator (d : Decorator) : Func → FState → (Exn + Func) * FState :=
  match d with
  | DOperation => Image_operation
  | DConverterTo to_class cost => Image_converter_to to_class cost
  | DConverterFrom from_class cost => Image_converter_from from_class cost
  end.

(** A decorated definition: the decorators are applied one after the other,
    each to what the one before returned; [ds] lists them in the order in
    which they are applied, the one next to [def] first. *)
Fixpoint decorate (ds : list Decorator) (func : Func) (st : FState)
    : (Exn + Func) * FState :=
  match ds with
  | [] => (inr func, st)
  | d :: ds' =>
      match apply_decorator d func st with
      | (inr func', st') => decorate ds' func' st'
      | (inl e, st') => (inl e, st')
      end
  end.

(** What a sequence of decorators is meant to leave on a function that had
    no attribute: whether it is marked as an operation, the last
    [converter_to] pair, and the [converter_from] pairs in order, if any. *)
Definition marks_operation (ds : list Decorator) : bool :=
  existsb (λ d, match d with DOperation => true | _ => false end) ds.

Definition last_converter_to (ds : list Decorator) : option Val :=
  last (omap (λ d, match d with
                   | DConverterTo to_class cost =>
                       Some (VTuple [to_class; default VNone cost])
                   | _ => None
                   end) ds).

Definition from_pairs (from_class : FromArg) (cost : option Val) : list Val :=
  match from_class with
  | FromList from_classes =>
      (λ sc, VTuple [sc; default VNone cost]) <$> from_classes
  | FromOne from_class => [VTuple [from_class; default VNone cost]]
  end.

Definition from_groups (ds : list Decorator) : list (list Val) :=
  omap (λ d, match d with
             | DConverterFrom from_class cost => Some (from_pairs from_class cost)
             | _ => None
             end) ds.

Definition converter_from_pairs (ds : list Decorator) : option (list Val) :=
  match from_groups ds with
  | [] => None
  | groups => Some (concat groups)
  end.

(** The state [st] holds for [func] exactly this marking. *)
Definition marked (st : FState) (func : Func) (op : bool) (to : option Val)
    (from : option (list Val)) : Prop :=
  func_getattr st func "_willow_operation" = (if op then Some (VBool true) else None) ∧
  func_getattr st func "_willow_converter_to" = to ∧
  match from with
  | Some pairs =>
      ∃ l, func_getattr st func "_willow_converter_from" = Some (VRef l) ∧
           list_objects st !! l = Some pairs
  | None => func_getattr st func "_willow_converter_from" = None
  end.

(** What one decorator does to the marking of the function. *)
Definition step_marking (d : Decorator)
    (m : bool * option Val * option (list Val)) : bool * option Val * option (list Val) :=
  let '(op, to, from) := m in
  match d with
  | DOperation => (true, to, from)
  | DConverterTo to_class cost =>
      (op, Some (VTuple [to_class; default VNone cost]), from)
  | DConverterFrom from_class cost =>
      (op, to, Some (default [] from ++ from_pairs from_class cost))
  end.

(** What going from [st] to [st'] by decorating [func] leaves alone among
    the list objects: every list other than the one [func] refers to keeps
    its items; the list [func] refers to afterwards is the one it referred
    to before, or one that did not exist; and no list disappears. *)
Definition lists_kept (st st' : FState) (func : Func) : Prop :=
  (∀ l items,
     list_objects st !! l = Some items →
     func_getattr st func "_willow_converter_from" ≠ Some (VRef l) →
     list_objects st' !! l = Some items) ∧
  (∀ l,
     func_getattr st' func "_willow_converter_from" = Some (VRef l) →
     func_getattr st func "_willow_converter_from" = Some (VRef l) ∨
     list_objects st !! l = None) ∧
  (∀ l, list_objects st' !! l = None → list_objects st !! l = None).

End Decorators.

(* ===================================================================== *)
(** ** Names declared by the classes, and set-ups with faults *)
(* ===================================================================== *)

Module Attributes.



(** The classes defined in [willow/image.py] itself. *)
Definition module_class (c : ImageClass) : Prop :=
  match c with
  | PluginClass _ => False
  | _ => True
  end.

(** Values that cannot be called: plain data, and the instances of the
    classes of the module, none of which defines [__call__]. *)
Definition not_callable (st : Py.State) (v : Py.Val) : Prop :=
  match v with
  | Py.VNone | Py.VBool _ | Py.VInt _ | Py.VStr _ | Py.VBytes _ | Py.VTuple _ => True
  | Py.VRef l =>
      ∃ o, Py.heap (Py.world st) !! l = Some o ∧ module_class (Py.ob_type o)
  | _ => False
  end.

End Attributes.

Module Backend.
Import Py.

(** A backend class that defines [save_as_jpeg] as a method of its own. *)
Definition class_dict (n name : string) : option (Val + Func) :=
  if decide (n = "PillowImage") then
    if decide (name = "save_as_jpeg") then Some (inr "PillowImage.save_as_jpeg")
    else None
  else None.

Definition env : Env :=
  mkEnv (Demo.registry_find_operation Demo.registry) Demo.backend_call
        Filetype.guess_extension class_dict.

(** A state with one instance of that class. *)
Definition pillow_loaded : State :=
  mkState (mkWorld {[ 1%positive := mkObj (PluginClass "PillowImage") ∅ ]} []) [].

End Backend.

Module Detector.
Import Py Willow.

(** An environment whose detector answers [image_format]. *)
Definition answering (env : Env) (image_format : option string) : Env :=
  mkEnv (find_operation env) (call_function env) (λ _, image_format)
        (plugin_class_dict env).

(** [Image.open(cls, f)] with the signature detector taken as any function
    on the world: it may raise, and it may change the world as it reads
    [f]. The detector is called outside of any [try], so its exception is
    the outcome of [open]; when it returns a format, [open] goes on as
    [Image_open] does with that format. *)
Definition Image_open_detecting
    (detect : Val → World → (Exn + option string) * World)
    (env : Env) (cls : ImageClass) (f : Val) : M Val :=
  λ st, match detect f (world st) with
        | (inl e, w) => (inl e, mkState w (calls st))
        | (inr image_format, w) =>
            Image_open (answering env image_format) cls f (mkState w (calls st))
        end.

(** The detector of an environment, which returns and leaves the world as
    it is. *)
Definition returning (env : Env) (f : Val) (w : World)
    : (Exn + option string) * World :=
  (inr (guess_extension env f), w).


End Detector.

Module Faults.
Import Py.

(** A registry that fails with something that is no [LookupError]. *)
Definition broken_registry_env : Env :=
  mkEnv (λ _ _, inl (mkExn TypeError "registry is broken"))
        Demo.backend_call Filetype.guess_extension (λ _ _, None).

(** Backends of which one converter fails. *)
Definition failing_backend_call (f : Func) (args : list Val)
    (kwargs : list (string * Val)) (w : World) : (Exn + Val) * World :=
  if decide (f = "WandImage.to_buffer_rgb") then
    (inl (mkExn IOError "cannot decode"), w)
  else Demo.backend_call f args kwargs w.

Definition failing_backend_env : Env :=
  mkEnv (Demo.registry_find_operation Demo.registry) failing_backend_call
        Filetype.guess_extension (λ _ _, None).

(** No function has an attribute yet, and there is no list. *)
Definition no_attributes : Decorators.FState := Decorators.mkFState ∅ ∅.

(** Another function was decorated before: it has its list of one pair. *)
Definition registered_before : Decorators.FState :=
  Decorators.mkFState
    {[ "to_wand" := {[ "_willow_converter_from" := VRef 1%positive ]} ]}
    {[ 1%positive := [VTuple [VClass JPEGImageFile; VNone]] ]}.

(** A function whose [_willow_converter_from] was set to [None] by hand. *)
Definition spoiled : Decorators.FState :=
  Decorators.mkFState {[ "to_pillow" := {[ "_willow_converter_from" := VNone ]} ]} ∅.

(** A state with one [RGBImageBuffer] of size 2 by 3. *)
Definition small_buffer : State :=
  mkState
    (mkWorld {[ 1%positive :=
                  mkObj RGBImageBuffer
                        (<["data" := VBytes []]>
                           (<["size" := VTuple [VInt 2; VInt 3]]> ∅)) ]} [])
    [].

End Faults.
(* ===================================================================== *)
(** ** Facts about the path resolver *)
(* ===================================================================== *)

Module RegistryFacts.
Import Registry.

Lemma extract_min_spec (F : list Entry) (m : Entry) (rest : list Entry) :
  extract_min F = Some (m, rest) →
  (∀ x, x ∈ F ↔ x = m ∨ x ∈ rest) ∧
  (∀ x, x ∈ F → q_cost m ≤ q_cost x) ∧
  length F = S (length rest).
Proof.
  revert m rest. induction F as [|e F IH]; intros m rest Hm; simpl in Hm.
  - discriminate.
  - destruct (extract_min F) as [[m' rest']|] eqn:HF.
    + destruct (IH _ _ eq_refl) as (Hin & Hmin & Hlen).
      destruct (q_cost m' <? q_cost e) eqn:Hlt; inversion Hm; subst; clear Hm.
      * apply Z.ltb_lt in Hlt. split; [|split].
        -- intros x. rewrite !elem_of_cons, Hin. tauto.
        -- intros x [->|Hx]%elem_of_cons; [lia|]. by apply Hmin.
        -- simpl. by rewrite Hlen.
      * apply Z.ltb_ge in Hlt. split; [|split].
        -- intros x. by rewrite elem_of_cons.
        -- intros x [->|Hx]%elem_of_cons; [lia|].
           specialize (Hmin x Hx). lia.
        -- done.
    + destruct F as [|e' F'].
      * inversion Hm; subst. split; [|split].
        -- intros x. rewrite elem_of_cons. tauto.
        -- intros x ->%list_elem_of_singleton. lia.
        -- done.
      * simpl in HF. destruct (extract_min F') as [[??]|];
          [destruct (_ <? _)|]; discriminate.
Qed.

Lemma extract_min_None (F : list Entry) : extract_min F = None → F = [].
Proof.
  destruct F as [|e F]; [done|]. simpl.
  destruct (extract_min F) as [[??]|]; [destruct (_ <? _)|]; discriminate.
Qed.

Lemma path_cost_app (p q : list Edge) :
  path_cost (p ++ q) = path_cost p + path_cost q.
Proof. induction p as [|e p IH]; simpl; [done|]. unfold path_cost in *. simpl. lia. Qed.

Section Search.
Variable E : list Edge.
Variable goal : ImageClass → bool.
Variable s : ImageClass.
Hypothesis E_nonneg : Forall (λ e, 0 ≤ e_cost e) E.

Lemma edge_nonneg e : e ∈ E → 0 ≤ e_cost e.
Proof. intros He. by apply (proj1 (Forall_forall _ _) E_nonneg). Qed.

Lemma walk_cost_nonneg a p b : walk E a p b → 0 ≤ path_cost p.
Proof.
  induction 1 as [|e p b He _ IH]; [done|].
  unfold path_cost in *. simpl. pose proof (edge_nonneg e He). lia.
Qed.

Lemma walk_snoc a p e :
  walk E a p (e_src e) → e ∈ E → walk E a (p ++ [e]) (e_dst e).
Proof.
  intros Hw He. remember (e_src e) as b eqn:Hb.
  induction Hw as [a|e' p b He' Hw IH]; subst; simpl.
  - constructor; [done|]. constructor.
  - constructor; [done|]. by apply IH.
Qed.

(** A chain that starts inside a set of node types and ends outside of it
    has a first edge that leaves the set. *)
Lemma walk_crossing (V : gset ImageClass) a q t :
  walk E a q t → a ∈ V → t ∉ V →
  ∃ q1 e q2, q = q1 ++ (e :: q2) ∧ walk E a q1 (e_src e) ∧ e ∈ E ∧
             e_src e ∈ V ∧ (e_dst e ∉ V) ∧ walk E (e_dst e) q2 t.
Proof.
  induction 1 as [a|e p b He Hw IH]; intros Ha Ht; [done|].
  destruct (decide (e_dst e ∈ V)) as [Hd|Hd].
  - destruct (IH Hd Ht) as (q1 & e' & q2 & -> & Hw1 & He' & Hs & Hd' & Hw2).
    exists (e :: q1), e', q2. split; [done|]. split; [by constructor|done].
  - exists [], e, p. split; [done|]. split; [constructor|done].
Qed.

Local Abbreviation inv := (search_inv E goal s).
Local Abbreviation measure := (search_measure E).

Lemma inv_frontier_bound F V q t :
  inv F V → walk E s q t → t ∉ V →
  ∃ x, x ∈ F ∧ (q_node x ∉ V) ∧ q_cost x ≤ path_cost q.
Proof.
  intros (HA & HC & HB & HD) Hw Ht.
  destruct (decide (s ∈ V)) as [Hs|Hs].
  - destruct (walk_crossing V _ _ _ Hw Hs Ht)
      as (q1 & e & q2 & -> & Hw1 & He & Hsrc & Hdst & Hw2).
    destruct (HB q1 e Hw1 He Hsrc Hdst) as (x & Hx & Hn & Hc).
    exists x. split; [done|]. split; [by rewrite Hn|].
    rewrite path_cost_app. change (path_cost (e :: q2)) with (e_cost e + path_cost q2).
    pose proof (walk_cost_nonneg _ _ _ Hw2). lia.
  - destruct HC as [?|(x & Hx & Hn & Hc)]; [done|].
    exists x. split; [done|]. split; [by rewrite Hn|].
    pose proof (walk_cost_nonneg _ _ _ Hw). lia.
Qed.

Lemma elem_of_visit (V : gset ImageClass) n x :
  x ∈ {[n]} ∪ V ↔ x = n ∨ x ∈ V.
Proof. by rewrite elem_of_union, elem_of_singleton. Qed.

Lemma measure_visit (V : gset ImageClass) n (l : list Edge) :
  n ∉ V →
  length (filter (λ e, e_src e ∉ V) l) =
  (length (filter (λ e, e_src e ∉ {[n]} ∪ V) l)
   + length (filter (λ e, e_src e = n) l))%nat.
Proof.
  intros Hn. induction l as [|e l IH]; [done|].
  rewrite !filter_cons.
  destruct (decide (e_src e = n)) as [Heq|Hne].
  - rewrite decide_True by (by rewrite Heq).
    rewrite decide_False by (rewrite elem_of_visit; tauto). simpl. lia.
  - destruct (decide (e_src e ∈ V)) as [Hin|Hnin].
    + rewrite decide_False by (intros ?; done).
      rewrite decide_False by (rewrite elem_of_visit; tauto). done.
    + rewrite decide_True by done.
      rewrite decide_True by (rewrite elem_of_visit; tauto). simpl. lia.
Qed.

Lemma inv_skip F V m rest :
  inv F V → (∀ x, x ∈ F ↔ x = m ∨ x ∈ rest) → q_node m ∈ V → inv rest V.
Proof.
  intros (HA & HC & HB & HD) Hin Hm. split; [|split; [|split]].
  - intros x Hx. apply HA, Hin. by right.
  - destruct HC as [?|(x & Hx & Hn & Hc)]; [by left|].
    apply Hin in Hx as [->|Hx]; [left; by rewrite <-Hn|].
    right. by exists x.
  - intros q e Hw He Hs Hd.
    destruct (HB q e Hw He Hs Hd) as (x & Hx & Hn & Hc).
    apply Hin in Hx as [->|Hx]; [by rewrite Hn in Hm|].
    by exists x.
  - done.
Qed.

Lemma inv_visit F V m rest :
  inv F V → (∀ x, x ∈ F ↔ x = m ∨ x ∈ rest) →
  (∀ x, x ∈ F → q_cost m ≤ q_cost x) →
  q_node m ∉ V → goal (q_node m) = false →
  inv (rest ++ expand E (q_cost m) (q_node m) (q_path m)) ({[q_node m]} ∪ V).
Proof.
  intros HI Hin Hmin Hm Hgoal.
  pose proof HI as (HA & HC & HB & HD).
  destruct (HA m) as [Hwm Hcm]; [apply Hin; by left|].
  split; [|split; [|split]].
  - intros x [Hx|Hx]%elem_of_app; [apply HA, Hin; by right|].
    unfold expand in Hx. apply list_elem_of_fmap in Hx as (e & -> & He).
    apply list_elem_of_filter in He as [Hsrc He]. simpl. split.
    + apply walk_snoc; [by rewrite Hsrc|done].
    + rewrite path_cost_app, Hcm. unfold path_cost. simpl. lia.
  - destruct HC as [?|(x & Hx & Hn & Hc)]; [left; apply elem_of_visit; by right|].
    apply Hin in Hx as [->|Hx]; [left; apply elem_of_visit; by left|].
    right. exists x. split; [|done]. apply elem_of_app. by left.
  - intros q e Hw He Hs Hd.
    rewrite elem_of_visit in Hs, Hd.
    assert (e_dst e ∉ V) as HdV by tauto.
    assert (e_dst e ≠ q_node m) as Hdm by tauto.
    destruct (decide (e_src e = q_node m)) as [Heq|Hne].
    + exists (mkEntry (q_cost m + e_cost e) (e_dst e) (q_path m ++ [e])).
      split; [|split; [done|]].
      * apply elem_of_app. right. unfold expand.
        apply list_elem_of_fmap. exists e. split; [done|].
        by apply list_elem_of_filter.
      * simpl.
        assert (Hw' : walk E s q (q_node m)) by (by rewrite <-Heq).
        destruct (inv_frontier_bound F V q (q_node m) HI Hw' Hm)
          as (x & Hx & _ & Hc).
        specialize (Hmin x Hx). lia.
    + assert (e_src e ∈ V) as HsV by tauto.
      destruct (HB q e Hw He HsV HdV) as (x & Hx & Hn & Hc).
      apply Hin in Hx as [->|Hx]; [congruence|].
      exists x. split; [|done]. apply elem_of_app. by left.
  - intros v [->|Hv]%elem_of_visit; [done|by apply HD].
Qed.

(** [search] is correct and never runs out of fuel when given at least
    [measure F V + 1] steps. *)
Lemma search_correct (fuel : nat) (F : list Entry) (V : gset ImageClass) :
  inv F V → (measure F V < fuel)%nat →
  match search E goal fuel F V with
  | Found m =>
      walk E s (q_path m) (q_node m) ∧ path_cost (q_path m) = q_cost m ∧
      goal (q_node m) = true ∧
      ∀ q t, walk E s q t → goal t = true → q_cost m ≤ path_cost q
  | Unreachable => ∀ q t, walk E s q t → goal t = false
  | OutOfFuel => False
  end.
Proof.
  revert F V. induction fuel as [|fuel IH]; intros F V HI Hfuel; [lia|].
  simpl. destruct (extract_min F) as [[m rest]|] eqn:Hex.
  - destruct (extract_min_spec _ _ _ Hex) as (Hin & Hmin & Hlen).
    destruct (decide (q_node m ∈ V)) as [Hv|Hv].
    + apply IH; [by eapply inv_skip|]. unfold search_measure in *. lia.
    + destruct (goal (q_node m)) eqn:Hgoal.
      * pose proof HI as (HA & _ & _ & HD).
        destruct (HA m) as [Hwm Hcm]; [apply Hin; by left|].
        split; [done|]. split; [done|]. split; [done|].
        intros q t Hw Ht.
        assert (t ∉ V) as HtV.
        { intros HtV. apply HD in HtV. congruence. }
        destruct (inv_frontier_bound F V q t HI Hw HtV) as (x & Hx & _ & Hc).
        specialize (Hmin x Hx). lia.
      * apply IH; [by eapply inv_visit|].
        unfold search_measure in *. rewrite length_app. unfold expand.
        rewrite length_fmap.
        rewrite (measure_visit V (q_node m) E Hv) in Hfuel. lia.
  - apply extract_min_None in Hex as ->.
    intros q t Hw. destruct (goal t) eqn:Ht; [|done].
    pose proof HI as (_ & _ & _ & HD).
    assert (t ∉ V) as HtV.
    { intros HtV. apply HD in HtV. congruence. }
    destruct (inv_frontier_bound [] V q t HI Hw HtV) as (x & Hx & _).
    by apply elem_of_nil in Hx.
Qed.

Lemma inv_init : inv [mkEntry 0 s []] ∅.
Proof.
  split; [|split; [|split]].
  - intros x ->%list_elem_of_singleton. simpl. split; [constructor|done].
  - right. exists (mkEntry 0 s []). split; [by apply list_elem_of_singleton|done].
  - intros q e _ _ Hs. by apply elem_of_empty in Hs.
  - intros v Hv. by apply elem_of_empty in Hv.
Qed.

Lemma measure_init : (measure [mkEntry 0 s []] ∅ < search_fuel E)%nat.
Proof.
  unfold search_measure, search_fuel. simpl.
  unfold lt. do 2 apply le_n_S. apply length_filter.
Qed.

End Search.

Lemma has_direct_operation_true reg c name :
  has_direct_operation reg c name = true ↔ is_Some (operations reg !! (c, name)).
Proof. unfold has_direct_operation. apply bool_decide_eq_true. Qed.

(** The resolver finds an optimal resolution exactly when an implementing
    node type is reachable. *)
Lemma resolve_spec reg node_type name :
  costs_ok reg →
  match resolve reg node_type name with
  | Some r => optimal reg node_type name r
  | None => ¬ reachable reg node_type name
  end.
Proof.
  intros Hcost. unfold resolve.
  destruct (operations reg !! (node_type, name)) as [impl|] eqn:Hdirect.
  - split; [constructor|]. split; [done|]. split; [done|].
    intros q t Hw _. simpl. by eapply walk_cost_nonneg.
  - pose proof (search_correct (converters reg)
                  (λ c, has_direct_operation reg c name) node_type Hcost
                  (search_fuel (converters reg)) _ _
                  (inv_init _ _ _) (measure_init _ _)) as Hs.
    destruct (search _ _ _ _ _) as [m| |]; [| |done].
    + destruct Hs as (Hw & Hc & Hg & Hmin).
      apply has_direct_operation_true in Hg as [impl Himpl].
      rewrite Himpl. split; [done|]. split; [done|]. split; [done|].
      intros q t Hq Ht. simpl. apply (Hmin q t Hq).
      by apply has_direct_operation_true.
    + intros (q & t & Hq & Ht).
      apply has_direct_operation_true in Ht.
      rewrite (Hs q t Hq) in Ht. discriminate.
Qed.

Lemma resolve_reachable reg node_type name :
  costs_ok reg → reachable reg node_type name →
  ∃ r, resolve reg node_type name = Some r ∧ optimal reg node_type name r.
Proof.
  intros Hcost Hreach. pose proof (resolve_spec reg node_type name Hcost) as Hs.
  destruct (resolve reg node_type name) as [r|]; [by exists r|done].
Qed.

(** A query leaves the registrations alone, so it resolves the same way
    before and after. *)
Lemma find_registrations reg node_type name :
  operations (find reg node_type name).2 = operations reg ∧
  converters (find reg node_type name).2 = converters reg.
Proof. unfold find. by destruct (cache reg !! (node_type, name)). Qed.

Lemma resolve_ext reg reg' node_type name :
  operations reg' = operations reg → converters reg' = converters reg →
  resolve reg' node_type name = resolve reg node_type name.
Proof.
  intros Ho Hc. unfold resolve, has_direct_operation. by rewrite Ho, Hc.
Qed.

Lemma find_well_formed reg node_type name :
  well_formed reg → well_formed (find reg node_type name).2.
Proof.
  intros [Hcost Hcache].
  destruct (find_registrations reg node_type name) as [Ho Hc].
  split.
  - unfold costs_ok. by rewrite Hc.
  - intros k r Hk. rewrite (resolve_ext reg) by done.
    unfold find in Hk. destruct (cache reg !! (node_type, name)) eqn:Hhit.
    + by apply Hcache.
    + simpl in Hk. apply lookup_insert_Some in Hk as [[<- <-]|[_ Hk]]; [done|].
      by apply Hcache.
Qed.

(** The answer of [find] is the resolution, whether it comes from the
    cache or not, and it is in the cache afterwards. *)
Lemma find_answer reg node_type name :
  cache_ok reg →
  ∃ reg', find reg node_type name =
            (match resolve reg node_type name with
             | Some r => inr r
             | None => inl OperationNotFoundError
             end, reg') ∧
          cache reg' !! (node_type, name) = Some (resolve reg node_type name).
Proof.
  intros Hcache. unfold find.
  destruct (cache reg !! (node_type, name)) as [r|] eqn:Hhit.
  - exists reg. rewrite (Hcache _ _ Hhit). simpl. split; [done|].
    rewrite Hhit. f_equal. apply (Hcache _ _ Hhit).
  - eexists. split; [done|]. simpl. by rewrite lookup_insert_eq.
Qed.

(** Registries as they are built: registrations first. *)
Lemma empty_well_formed : well_formed empty.
Proof. split; [constructor|]. intros k r Hk. simpl in Hk. by rewrite lookup_empty in Hk. Qed.

Lemma register_converter_costs_ok reg a b cost impl reg' :
  costs_ok reg → register_converter reg a b cost impl = inr reg' →
  costs_ok reg'.
Proof.
  unfold register_converter, costs_ok. intros Hc Hr.
  destruct (default 1 cost <? 0) eqn:Hneg; [discriminate|].
  inversion Hr; subst; simpl. apply Forall_app. split; [done|].
  apply Forall_singleton. simpl. by apply Z.ltb_ge.
Qed.

Lemma register_operation_costs_ok reg c name impl reg' :
  costs_ok reg → register_operation reg c name impl = inr reg' →
  costs_ok reg'.
Proof.
  unfold register_operation, costs_ok. intros Hc Hr.
  destruct (operations reg !! (c, name)); [discriminate|].
  by inversion Hr; subst.
Qed.

Lemma register_converter_cache reg a b cost impl reg' :
  register_converter reg a b cost impl = inr reg' → cache reg' = cache reg.
Proof.
  unfold register_converter. destruct (default 1 cost <? 0); [discriminate|].
  by intros [= <-].
Qed.

Lemma register_operation_cache reg c name impl reg' :
  register_operation reg c name impl = inr reg' → cache reg' = cache reg.
Proof.
  unfold register_operation. destruct (operations reg !! (c, name)); [discriminate|].
  by intros [= <-].
Qed.

Lemma register_all_registered edges ops : registered (register_all edges ops).
Proof.
  unfold register_all.
  assert (registered (inr empty)) as Hempty by (split; [constructor|done]).
  revert Hempty. generalize (inr empty : RegError + t).
  induction edges as [|[[[a b] cost] impl] edges IH]; intros acc Hacc; simpl.
  - revert acc Hacc.
    induction ops as [|[[c name] impl] ops IH]; intros acc Hacc; simpl; [done|].
    apply IH. destruct acc as [err|reg]; [done|]. destruct Hacc as [Hc He].
    destruct (register_operation reg c name impl) as [err|reg'] eqn:Hr; [done|].
    split; [by eapply register_operation_costs_ok|].
    by rewrite (register_operation_cache _ _ _ _ _ Hr).
  - apply IH. destruct acc as [err|reg]; [done|]. destruct Hacc as [Hc He].
    destruct (register_converter reg a b cost impl) as [err|reg'] eqn:Hr; [done|].
    split; [by eapply register_converter_costs_ok|].
    by rewrite (register_converter_cache _ _ _ _ _ _ Hr).
Qed.

(** Registries built by the start-up registrations are well formed. *)
Lemma register_all_well_formed edges ops reg :
  register_all edges ops = inr reg → well_formed reg.
Proof.
  intros Hreg. pose proof (register_all_registered edges ops) as Hr.
  rewrite Hreg in Hr. destruct Hr as [Hc He]. split; [done|].
  intros k r Hk. rewrite He in Hk. by rewrite lookup_empty in Hk.
Qed.

End RegistryFacts.

(* ===================================================================== *)
(** ** Facts about the signature detector *)
(* ===================================================================== *)

Module FiletypeFacts.
Import Py Filetype.

Lemma longest_None hits : longest hits = None ↔ hits = [].
Proof.
  destruct hits as [|h hits]; [done|]. simpl.
  destruct (longest hits) as [h'|]; [destruct (_ <? _)%nat|]; done.
Qed.

(** The detector recognises nothing exactly when no signature of the table
    matches the leading window. *)
Lemma sniff_None bs :
  sniff bs = None ↔
  ∀ sig tag, (sig, tag) ∈ signatures →
             matches sig (take window_size bs) = false.
Proof.
  unfold sniff. rewrite fmap_None, longest_None. split.
  - intros Hnil sig tag Hin.
    destruct (matches sig (take window_size bs)) eqn:Hm; [|done].
    by destruct (filter_nil_not_elem_of _ _ (sig, tag) Hnil Hm).
  - intros Hnone. apply elem_of_nil_inv. intros [sig tag] Hin.
    apply list_elem_of_filter in Hin as [Hm Hin]. simpl in Hm.
    rewrite (Hnone sig tag Hin) in Hm. discriminate.
Qed.

End FiletypeFacts.

(* ===================================================================== *)
(** ** Facts about [willow/image.py] *)
(* ===================================================================== *)

Module WillowFacts.
Import Py Willow.

Ltac in_classes H :=
  repeat (apply elem_of_cons in H as [->|H]); [..|by apply elem_of_nil in H].

Section WithEnv.
Context (env : Env).

(** *** Class attributes *)

Lemma class_lookup_original_format c :
  c ∈ image_file_classes →
  class_lookup env c "original_format"
  = Some (CProperty "ImageFile.original_format").
Proof. intros Hc. in_classes Hc; vm_compute; reflexivity. Qed.

Lemma class_lookup_format_name c :
  c ∈ image_file_classes →
  ∃ v, class_lookup env c "format_name" = Some (CData v).
Proof. intros Hc. in_classes Hc; eexists; vm_compute; reflexivity. Qed.

Lemma class_lookup_f c :
  c ∈ image_file_classes → class_lookup env c "f" = None.
Proof. intros Hc. in_classes Hc; vm_compute; reflexivity. Qed.

Lemma class_lookup_size c :
  c ∈ image_buffer_classes → class_lookup env c "size" = None.
Proof. intros Hc. in_classes Hc; vm_compute; reflexivity. Qed.

Lemma class_lookup_data c :
  c ∈ image_buffer_classes → class_lookup env c "data" = None.
Proof. intros Hc. in_classes Hc; vm_compute; reflexivity. Qed.

Lemma initial_class_is_file t c :
  INITIAL_IMAGE_CLASSES !! t = Some c → c ∈ image_file_classes.
Proof.
  unfold INITIAL_IMAGE_CLASSES, image_file_classes. simpl. intros H.
  repeat (apply lookup_insert_Some in H as [[_ <-]|[_ H]];
          [apply (bool_decide_unpack _); vm_compute; exact I|]).
  by rewrite lookup_empty in H.
Qed.

(** *** Instances *)

Lemma type_of_live self o st :
  heap (world st) !! self = Some o → type_of self st = (inr (ob_type o), st).
Proof. intros H. unfold type_of. by rewrite H. Qed.

(** Setting an attribute that no class declares as a property stores it
    in the instance. *)
Lemma py_setattr_store self o name v st :
  heap (world st) !! self = Some o →
  class_lookup env (ob_type o) name = None →
  py_setattr env self name v st
  = (inr (), stored self (mkObj (ob_type o) (<[name := v]> (ob_dict o))) st).
Proof.
  intros Hself Hcls. unfold py_setattr, bind.
  rewrite (type_of_live _ _ _ Hself), Hcls. unfold stored. do 3 f_equal.
  apply map_eq. intros l. rewrite lookup_alter, lookup_insert.
  destruct (decide (self = l)) as [<-|?]; [by rewrite Hself|done].
Qed.

Lemma allocate_fresh cls st :
  ∃ l, heap (world st) !! l = None ∧
       allocate cls st = (inr l, stored l (mkObj cls ∅) st).
Proof.
  exists (fresh (dom (heap (world st)))). split; [|done].
  apply not_elem_of_dom, is_fresh.
Qed.

Lemma stored_stored l o o' st : stored l o' (stored l o st) = stored l o' st.
Proof. unfold stored. simpl. by rewrite insert_insert_eq. Qed.

Lemma stored_lookup l o st : heap (world (stored l o st)) !! l = Some o.
Proof. simpl. apply lookup_insert_eq. Qed.

(** Instantiating a file class stores the byte source under [f]. *)
Lemma instantiate_file c f st :
  c ∈ image_file_classes →
  ∃ l, heap (world st) !! l = None ∧
       instantiate env c [f] st
       = (inr (VRef l), stored l (mkObj c (<["f" := f]> ∅)) st).
Proof.
  intros Hc. destruct (allocate_fresh c st) as (l & Hl & Halloc).
  exists l. split; [done|].
  assert (instantiate env c [f]
          = (let* l := allocate c in ImageFile___init__ env l f ;;; ret (VRef l)))
    as -> by (in_classes Hc; reflexivity).
  unfold bind at 1. rewrite Halloc. unfold ImageFile___init__, bind, ret.
  rewrite (py_setattr_store l (mkObj c ∅)); simpl;
    [|apply lookup_insert_eq|by apply class_lookup_f].
  by rewrite stored_stored.
Qed.

(** Instantiating a buffer class stores the size and the data. *)
Lemma instantiate_buffer c size data st :
  c ∈ image_buffer_classes →
  ∃ l, heap (world st) !! l = None ∧
       instantiate env c [size; data] st
       = (inr (VRef l),
          stored l (mkObj c (<["data" := data]> (<["size" := size]> ∅))) st).
Proof.
  intros Hc. destruct (allocate_fresh c st) as (l & Hl & Halloc).
  exists l. split; [done|].
  assert (instantiate env c [size; data]
          = (let* l := allocate c in
             ImageBuffer___init__ env l size data ;;; ret (VRef l)))
    as -> by (in_classes Hc; reflexivity).
  unfold bind at 1. rewrite Halloc. unfold ImageBuffer___init__, bind, ret.
  rewrite (py_setattr_store l (mkObj c ∅)); simpl;
    [|apply lookup_insert_eq|by apply class_lookup_size].
  rewrite (py_setattr_store l (mkObj c (<["size" := size]> ∅))); simpl;
    [|apply lookup_insert_eq|by apply class_lookup_data].
  by rewrite !stored_stored.
Qed.

(** *** Attribute access *)

(** An attribute held by the instance is returned as it is, unless the
    class makes the name a property. *)
Lemma py_getattr_instance self o name v st :
  heap (world st) !! self = Some o →
  ob_dict o !! name = Some v →
  (∀ g, class_lookup env (ob_type o) name ≠ Some (CProperty g)) →
  py_getattr env self name st = (inr v, st).
Proof.
  intros Hself Hv Hprop. unfold py_getattr, bind.
  rewrite (type_of_live _ _ _ Hself).
  assert (lookup_attr env self name st = (inr v, st)) as Hl.
  { unfold lookup_attr. by rewrite Hself, Hv. }
  destruct (class_lookup env (ob_type o) name) as [[]|] eqn:Hc; try done.
  by destruct (Hprop fget).
Qed.

(** An attribute that the instance does not hold and that a class defines
    as a plain value or as a function. *)
Lemma py_getattr_class_data self o name v st :
  heap (world st) !! self = Some o →
  ob_dict o !! name = None →
  class_lookup env (ob_type o) name = Some (CData v) →
  py_getattr env self name st = (inr v, st).
Proof.
  intros Hself Hd Hc. unfold py_getattr, bind.
  rewrite (type_of_live _ _ _ Hself), Hc. unfold lookup_attr.
  by rewrite Hself, Hd, Hc.
Qed.

Lemma py_getattr_method self o name f st :
  heap (world st) !! self = Some o →
  ob_dict o !! name = None →
  class_lookup env (ob_type o) name = Some (CFunction f) →
  py_getattr env self name st = (inr (VBound f (VRef self)), st).
Proof.
  intros Hself Hd Hc. unfold py_getattr, bind.
  rewrite (type_of_live _ _ _ Hself), Hc. unfold lookup_attr.
  by rewrite Hself, Hd, Hc.
Qed.

(** An attribute found nowhere is asked of [__getattr__]. *)
Lemma py_getattr_fallback self o name st :
  heap (world st) !! self = Some o →
  ob_dict o !! name = None →
  class_lookup env (ob_type o) name = None →
  py_getattr env self name st = Image___getattr__ env self name st.
Proof.
  intros Hself Hd Hc. unfold py_getattr, bind.
  rewrite (type_of_live _ _ _ Hself), Hc. unfold lookup_attr.
  by rewrite Hself, Hd, Hc.
Qed.

Lemma Image___getattr___resolved self o attr operation c conversion_path cost st :
  heap (world st) !! self = Some o →
  find_operation env (ob_type o) attr = inr (operation, c, conversion_path, cost) →
  Image___getattr__ env self attr st
  = (inr (VWrapper operation conversion_path self), st).
Proof.
  intros Hself Hfind. unfold Image___getattr__, bind.
  by rewrite (type_of_live _ _ _ Hself), Hfind.
Qed.

(** [format_name] of an [ImageFile]: the instance attribute if there is
    one, else the class attribute. *)
Lemma lookup_attr_format_name self o st :
  heap (world st) !! self = Some o →
  ob_type o ∈ image_file_classes →
  ∃ v, lookup_attr env self "format_name" st = (inr v, st) ∧
       (ob_dict o !! "format_name" = None →
        class_lookup env (ob_type o) "format_name" = Some (CData v)).
Proof.
  intros Hself Hc. unfold lookup_attr. rewrite Hself.
  destruct (ob_dict o !! "format_name") as [v|] eqn:Hd.
  - exists v. by split.
  - destruct (class_lookup_format_name _ Hc) as [v Hv]. rewrite Hv.
    exists v. by split.
Qed.

(** No class makes [format_name] a property, so inside
    [ImageFile.original_format] the access [self.format_name] is the plain
    lookup. *)
Lemma py_getattr_format_name self st :
  py_getattr env self "format_name" st = lookup_attr env self "format_name" st.
Proof.
  unfold py_getattr, bind, type_of.
  destruct (heap (world st) !! self) as [o|] eqn:Hself.
  - assert (∀ g, class_lookup env (ob_type o) "format_name" ≠ Some (CProperty g))
      as Hnoprop.
    { intros g. destruct (ob_type o) as [| | | | | | | | | | |n];
        try (vm_compute; discriminate).
      unfold class_lookup, mro. simpl.
      destruct (plugin_class_dict env n "format_name") as [[v|f]|]; simpl;
        discriminate. }
    destruct (class_lookup env (ob_type o) "format_name") as [[]|] eqn:Hc;
      try reflexivity.
    by destruct (Hnoprop fget).
  - unfold lookup_attr. by rewrite Hself.
Qed.

(** *** Dispatch *)

Lemma run_converters_converts conversion_path :
  ∀ st image cs image' w',
    converts env (world st) image (conversion_path.*1) cs image' w' →
    run_converters env conversion_path image st
    = (inr image', mkState w' (calls st ++ cs)).
Proof.
  induction conversion_path as [|[converter x] rest IH];
    intros st image cs image' w' Hc; simpl in Hc; inversion Hc; subst; simpl.
  - unfold ret. rewrite app_nil_r. by destruct st.
  - unfold bind, call_logged.
    match goal with H : call_function _ _ _ _ _ = _ |- _ => rewrite H end.
    erewrite IH by (simpl; eassumption). simpl.
    by rewrite <-app_assoc.
Qed.

(** The closure built by [Image.__getattr__], when every converter of the
    path returns: the converters are called in order, then the
    operation, whose outcome is the outcome of the call. *)
Lemma wrapper_converts operation conversion_path self args kwargs st cs image w' :
  converts env (world st) (VRef self) (conversion_path.*1) cs image w' →
  wrapper env operation conversion_path self args kwargs st
  = ((call_function env operation (image :: args) kwargs w').1,
     mkState (call_function env operation (image :: args) kwargs w').2
             (calls st ++ cs ++ [mkCall operation (image :: args) kwargs])).
Proof.
  intros Hc. unfold wrapper, bind.
  rewrite (run_converters_converts _ _ _ _ _ _ Hc).
  unfold call_logged. simpl.
  destruct (call_function env operation (image :: args) kwargs w') as [r w''].
  simpl. by rewrite app_assoc.
Qed.

(** A converter that raises ends the call with its exception: the
    converters after it and the operation are not called. *)
Lemma wrapper_converter_raises operation before converter x after self
    args kwargs st cs image w' e w'' :
  converts env (world st) (VRef self) (before.*1) cs image w' →
  call_function env converter [image] [] w' = (inl e, w'') →
  wrapper env operation (before ++ (converter, x) :: after) self args kwargs st
  = (inl e, mkState w'' (calls st ++ cs ++ [mkCall converter [image] []])).
Proof.
  intros Hc He. unfold wrapper, bind.
  assert (∀ st image0 cs,
            converts env (world st) image0 (before.*1) cs image w' →
            run_converters env (before ++ (converter, x) :: after) image0 st
            = (inl e, mkState w'' (calls st ++ cs ++ [mkCall converter [image] []])))
    as Hrun.
  { clear Hc st cs. induction before as [|[c y] before IH];
      intros st image0 cs Hc; simpl in Hc; inversion Hc; subst; simpl.
    - unfold bind, call_logged. by rewrite He.
    - unfold bind, call_logged.
      match goal with H : call_function _ c _ _ _ = _ |- _ => rewrite H end.
      erewrite IH by (simpl; eassumption). simpl.
      by rewrite <-app_assoc. }
  by rewrite (Hrun _ _ _ Hc).
Qed.

(** *** [Image.open] *)

Lemma Image_open_mapped cls f st t c :
  guess_extension env f = Some t →
  INITIAL_IMAGE_CLASSES !! t = Some c →
  ∃ l, heap (world st) !! l = None ∧
       Image_open env cls f st
       = (inr (VRef l), stored l (mkObj c (<["f" := f]> ∅)) st).
Proof.
  intros Hg Ht. unfold Image_open. rewrite Hg. simpl. rewrite Ht.
  apply instantiate_file. by eapply initial_class_is_file.
Qed.

Lemma Image_open_unmapped cls f st :
  guess_extension env f ≫= (λ k, INITIAL_IMAGE_CLASSES !! k) = None →
  ∃ msg, Image_open env cls f st
         = (inl (mkExn UnrecognisedImageFormatError msg), st).
Proof.
  intros Hn. unfold Image_open. rewrite Hn.
  destruct (truthy _); eexists; reflexivity.
Qed.

End WithEnv.

End WillowFacts.

(* ===================================================================== *)
(** ** More facts about attribute access *)
(* ===================================================================== *)

Module AttributeFacts.
Import Py Willow Attributes.

Section WithEnv.
Context (env : Env).







(** Assignment to a name that is no property stores it in the instance. *)
Lemma py_setattr_plain self o name v st :
  heap (world st) !! self = Some o →
  (∀ g, class_lookup env (ob_type o) name ≠ Some (CProperty g)) →
  py_setattr env self name v st
  = (inr (), stored self (mkObj (ob_type o) (<[name := v]> (ob_dict o))) st).
Proof.
  intros Hself Hprop. unfold py_setattr, bind.
  rewrite (WillowFacts.type_of_live _ _ _ Hself).
  assert (alter (λ o, mkObj (ob_type o) (<[name := v]> (ob_dict o))) self
                (heap (world st))
          = <[self := mkObj (ob_type o) (<[name := v]> (ob_dict o))]> (heap (world st)))
    as Halter.
  { apply map_eq. intros l. rewrite lookup_alter, lookup_insert.
    destruct (decide (self = l)) as [<-|?]; [by rewrite Hself|done]. }
  destruct (class_lookup env (ob_type o) name) as [[]|] eqn:Hc;
    try (unfold stored; by rewrite Halter).
  by destruct (Hprop fget).
Qed.

End WithEnv.

End AttributeFacts.

Module DetectorFacts.
Import Py Willow Detector.

(** [Image_open] depends on the environment through the detector's answer
    only. *)
Lemma Image_open_answering env cls f st :
  Image_open (answering env (guess_extension env f)) cls f st
  = Image_open env cls f st.
Proof.
  unfold Image_open. simpl.
  destruct (guess_extension env f ≫= (λ k, INITIAL_IMAGE_CLASSES !! k))
    as [c|] eqn:Hmapped; [|done].
  destruct (guess_extension env f) as [t|]; [|done]. simpl in Hmapped.
  pose proof (WillowFacts.initial_class_is_file t c Hmapped) as Hc.
  assert (∀ env', instantiate env' c [f] st
                  = (inr (VRef (fresh (dom (heap (world st))))),
                     stored (fresh (dom (heap (world st))))
                            (mkObj c (<["f" := f]> ∅)) st)) as Hinst.
  { intros env'.
    assert (instantiate env' c [f]
            = (let* l := allocate c in ImageFile___init__ env' l f ;;; ret (VRef l)))
      as -> by (WillowFacts.in_classes Hc; reflexivity).
    unfold bind at 1. unfold allocate.
    fold (stored (fresh (dom (heap (world st)))) (mkObj c ∅) st).
    unfold ImageFile___init__, bind, ret.
    rewrite (WillowFacts.py_setattr_store env' _ (mkObj c ∅)); simpl;
      [|apply lookup_insert_eq|by apply WillowFacts.class_lookup_f].
    by rewrite WillowFacts.stored_stored. }
  by rewrite !Hinst.
Qed.

(** With a detector that returns and leaves the world alone,
    [Image_open_detecting] is [Image_open]. *)
Lemma Image_open_detecting_returning env cls f st :
  Image_open_detecting (returning env) env cls f st = Image_open env cls f st.
Proof.
  unfold Image_open_detecting, returning.
  rewrite Image_open_answering. by destruct st.
Qed.

End DetectorFacts.

(* ===================================================================== *)
(** ** Facts about the registration decorators *)
(* ===================================================================== *)

Module DecoratorFacts.
Import Py Decorators.

Lemma func_getattr_setattr_eq func name v st :
  func_getattr (func_setattr func name v st) func name = Some v.
Proof.
  unfold func_getattr, func_setattr. simpl.
  rewrite lookup_insert_eq. simpl. apply lookup_insert_eq.
Qed.

Lemma func_getattr_setattr_ne func name name' v st :
  name ≠ name' →
  func_getattr (func_setattr func name v st) func name' = func_getattr st func name'.
Proof.
  intros Hne. unfold func_getattr, func_setattr. simpl.
  rewrite lookup_insert_eq. simpl. rewrite lookup_insert_ne by done.
  by destruct (func_dict st !! func).
Qed.

Lemma func_dict_setattr_other func g name v st :
  g ≠ func → func_dict (func_setattr func name v st) !! g = func_dict st !! g.
Proof. intros Hne. unfold func_setattr. simpl. by rewrite lookup_insert_ne. Qed.

Lemma func_hasattr_true st func name v :
  func_getattr st func name = Some v → func_hasattr st func name = true.
Proof. intros H. unfold func_hasattr. rewrite H. by apply bool_decide_eq_true_2. Qed.

Lemma func_hasattr_false st func name :
  func_getattr st func name = None → func_hasattr st func name = false.
Proof.
  intros H. unfold func_hasattr. rewrite H.
  apply bool_decide_eq_false_2. by intros [? ?].
Qed.

(** The items a [converter_from] closure adds. *)
Lemma converter_from_wrapper_listed from_class cost func st l pairs :
  func_getattr st func "_willow_converter_from" = Some (VRef l) →
  list_objects st !! l = Some pairs →
  Image_converter_from from_class cost func st
  = (inr func,
     mkFState (func_dict st)
              (<[l := pairs ++ from_pairs from_class cost]> (list_objects st))).
Proof.
  intros Hattr Hlist. unfold Image_converter_from, converter_from_wrapper.
  rewrite (func_hasattr_true _ _ _ _ Hattr). simpl. rewrite Hattr.
  destruct from_class; simpl; by rewrite Hlist.
Qed.

Lemma converter_from_wrapper_first from_class cost func st :
  func_getattr st func "_willow_converter_from" = None →
  Image_converter_from from_class cost func st
  = (inr func,
     func_setattr func "_willow_converter_from"
       (VRef (fresh (dom (list_objects st))))
       (mkFState (func_dict st)
                 (<[fresh (dom (list_objects st)) := from_pairs from_class cost]>
                    (list_objects st)))).
Proof.
  intros Hattr. unfold Image_converter_from, converter_from_wrapper.
  rewrite (func_hasattr_false _ _ _ Hattr). simpl.
  unfold func_setattr_new_list. rewrite func_getattr_setattr_eq.
  destruct from_class; simpl; rewrite lookup_insert_eq; simpl;
    unfold func_setattr; simpl; by rewrite insert_insert_eq.
Qed.

Lemma apply_decorator_marked d func st op to from :
  marked st func op to from →
  ∃ st',
    apply_decorator d func st = (inr func, st') ∧
    marked st' func (step_marking d (op, to, from)).1.1
           (step_marking d (op, to, from)).1.2
           (step_marking d (op, to, from)).2 ∧
    (∀ g, g ≠ func → func_dict st' !! g = func_dict st !! g).
Proof.
  intros (Hop & Hto & Hfrom). destruct d as [|to_class cost|from_class cost]; simpl.
  - eexists. split; [done|]. split; [|intros g; apply func_dict_setattr_other].
    split; [apply func_getattr_setattr_eq|].
    split; [by rewrite func_getattr_setattr_ne|].
    destruct from as [pairs|]; [|by rewrite func_getattr_setattr_ne].
    destruct Hfrom as (l & Hl & Hp). exists l.
    by rewrite func_getattr_setattr_ne.
  - eexists. split; [done|]. split; [|intros g; apply func_dict_setattr_other].
    split; [by rewrite func_getattr_setattr_ne|].
    split; [apply func_getattr_setattr_eq|].
    destruct from as [pairs|]; [|by rewrite func_getattr_setattr_ne].
    destruct Hfrom as (l & Hl & Hp). exists l.
    by rewrite func_getattr_setattr_ne.
  - destruct from as [pairs|]; simpl.
    + destruct Hfrom as (l & Hl & Hp).
      rewrite (converter_from_wrapper_listed _ _ _ _ _ _ Hl Hp).
      eexists. split; [done|]. split; [|done].
      split; [done|]. split; [done|]. exists l. split; [done|].
      simpl. apply lookup_insert_eq.
    + rewrite (converter_from_wrapper_first _ _ _ _ Hfrom).
      eexists. split; [done|].
      split; [|intros g Hg; by rewrite func_dict_setattr_other].
      split; [by rewrite func_getattr_setattr_ne|].
      split; [by rewrite func_getattr_setattr_ne|].
      eexists. split; [apply func_getattr_setattr_eq|].
      simpl. apply lookup_insert_eq.
Qed.

Lemma last_converter_to_cons d ds :
  last_converter_to (d :: ds)
  = match last_converter_to ds with
    | Some v => Some v
    | None =>
        match d with
        | DConverterTo to_class cost => Some (VTuple [to_class; default VNone cost])
        | _ => None
        end
    end.
Proof.
  unfold last_converter_to. destruct d; simpl; try by destruct (last _).
  rewrite last_cons. by destruct (last _).
Qed.

Lemma from_groups_cons d ds :
  from_groups (d :: ds)
  = match d with
    | DConverterFrom from_class cost => from_pairs from_class cost :: from_groups ds
    | _ => from_groups ds
    end.
Proof. by destruct d. Qed.

Lemma decorate_marked ds : ∀ func st op to from,
  marked st func op to from →
  ∃ st',
    decorate ds func st = (inr func, st') ∧
    marked st' func (op || marks_operation ds)%bool
           (match last_converter_to ds with Some v => Some v | None => to end)
           (match from_groups ds with
            | [] => from
            | groups => Some (default [] from ++ concat groups)
            end) ∧
    (∀ g, g ≠ func → func_dict st' !! g = func_dict st !! g).
Proof.
  induction ds as [|d ds IH]; intros func st op to from Hm.
  - exists st. split; [done|]. split; [|done]. simpl. by rewrite orb_false_r.
  - destruct (apply_decorator_marked d func st op to from Hm)
      as (st1 & Hstep & Hm1 & Hframe1).
    destruct (IH func st1 _ _ _ Hm1) as (st' & Hrest & Hm' & Hframe').
    exists st'. split; [simpl; by rewrite Hstep|].
    split; [|intros g Hg; by rewrite Hframe', Hframe1].
    rewrite last_converter_to_cons, from_groups_cons.
    change (marks_operation (d :: ds))
      with (match d with DOperation => true | _ => false end
            || marks_operation ds)%bool.
    destruct d as [|to_class cost|from_class cost];
      cbn [step_marking fst snd] in Hm'.
    + replace (op || (true || marks_operation ds))%bool with true
        by (by destruct op).
      by destruct (last_converter_to ds).
    + by destruct (last_converter_to ds).
    + destruct (from_groups ds) as [|g gs];
        cbn [concat default orb app] in Hm' |- *.
      * rewrite app_nil_r. by destruct (last_converter_to ds).
      * rewrite app_assoc. by destruct (last_converter_to ds).
Qed.

Lemma apply_decorator_lists_kept d func st op to from :
  marked st func op to from →
  lists_kept st (apply_decorator d func st).2 func.
Proof.
  intros (Hop & Hto & Hfrom). destruct d as [|to_class cost|from_class cost]; simpl.
  - split; [|split]; simpl; [done| |done].
    intros l. rewrite func_getattr_setattr_ne by done. by left.
  - split; [|split]; simpl; [done| |done].
    intros l. rewrite func_getattr_setattr_ne by done. by left.
  - destruct from as [pairs|].
    + destruct Hfrom as (l0 & Hl0 & Hp).
      rewrite (converter_from_wrapper_listed _ _ _ _ _ _ Hl0 Hp). simpl.
      split; [|split].
      * intros l items Hl Hne. simpl. rewrite lookup_insert_ne; [done|].
        intros ->. by rewrite Hl0 in Hne.
      * intros l Hl. by left.
      * intros l Hl. simpl in Hl. by apply lookup_insert_None in Hl as [? _].
    + rewrite (converter_from_wrapper_first _ _ _ _ Hfrom). simpl.
      pose proof (is_fresh (dom (list_objects st))) as Hfresh.
      apply not_elem_of_dom in Hfresh.
      split; [|split].
      * intros l items Hl _. unfold func_setattr. simpl.
        rewrite lookup_insert_ne; [done|].
        intros <-. by rewrite Hfresh in Hl.
      * intros l Hl. rewrite func_getattr_setattr_eq in Hl.
        injection Hl as <-. by right.
      * intros l Hl. unfold func_setattr in Hl. simpl in Hl.
        by apply lookup_insert_None in Hl as [? _].
Qed.

Lemma decorate_lists_kept ds : ∀ func st op to from,
  marked st func op to from →
  lists_kept st (decorate ds func st).2 func.
Proof.
  induction ds as [|d ds IH]; intros func st op to from Hm.
  - simpl. split; [|split]; [done| |done]. intros l Hl. by left.
  - destruct (apply_decorator_marked d func st op to from Hm)
      as (st1 & Hstep & Hm1 & _).
    pose proof (apply_decorator_lists_kept d func st op to from Hm)
      as (H1 & H2 & H3).
    rewrite Hstep in H1, H2, H3. simpl in H1, H2, H3.
    destruct (IH func st1 _ _ _ Hm1) as (G1 & G2 & G3).
    simpl. rewrite Hstep.
    split; [|split].
    + intros l items Hl Hne. apply G1; [by apply H1|].
      intros Hl1. destruct (H2 l Hl1) as [?|Hnone]; [done|].
      by rewrite Hnone in Hl.
    + intros l Hl. destruct (G2 l Hl) as [Hl1|Hnone].
      * apply (H2 l Hl1).
      * right. by apply H3.
    + intros l Hl. by apply H3, G3.
Qed.

(** Registering source classes one by one on a function that has its
    list of pairs. *)
Lemma decorate_singles_listed cost func l from_classes : ∀ st pairs,
  func_getattr st func "_willow_converter_from" = Some (VRef l) →
  list_objects st !! l = Some pairs →
  decorate ((λ sc, DConverterFrom (FromOne sc) cost) <$> from_classes) func st
  = (inr func,
     mkFState (func_dict st)
              (<[l := pairs ++ from_pairs (FromList from_classes) cost]>
                 (list_objects st))).
Proof.
  induction from_classes as [|sc scs IH]; intros st pairs Hattr Hlist.
  - simpl. rewrite app_nil_r, (insert_id _ _ _ Hlist). by destruct st.
  - rewrite fmap_cons.
    change (decorate (?d :: ?ds) func st)
      with (match apply_decorator d func st with
            | (inr func', st') => decorate ds func' st'
            | (inl e, st') => (inl e, st')
            end).
    cbn [apply_decorator].
    rewrite (converter_from_wrapper_listed _ _ _ _ _ _ Hattr Hlist).
    rewrite (IH _ (pairs ++ from_pairs (FromOne sc) cost));
      [|done|simpl; apply lookup_insert_eq].
    simpl. by rewrite insert_insert_eq, <-app_assoc.
Qed.

End DecoratorFacts.

(* ===================================================================== *)
(** ** The cases of [tests/test_image.py] *)
(* ===================================================================== *)

Module Tests.
Import Py Willow.

(** [TestImghdrJPEGPatch.test_detects_photoshop3_jpeg] *)
Example test_detects_photoshop3_jpeg :
  Filetype.guess_extension
    (VBytes ([Byte.xff; Byte.xd8; Byte.xff; Byte.xed; Byte.x00]
               ++ String.list_byte_of_string ",Photoshop 3.0" ++ [Byte.x00]))
  = Some "jpg".
Proof. vm_compute. reflexivity. Qed.

(** [TestImghdrJPEGPatch.test_junk] *)
Example test_junk :
  Filetype.guess_extension (VBytes Demo.not_an_image) = None.
Proof. vm_compute. reflexivity. Qed.

(** [TestOpenImage.test_opens_jpeg] *)
Example test_opens_jpeg :
  let st := Demo.jpeg_opened in
  (Image_open Demo.env Image (VBytes Demo.jpeg_header) Demo.empty_state).1
  = inr (VRef 1%positive) ∧
  (ob_type <$> heap (world st) !! 1%positive) = Some JPEGImageFile ∧
  (py_getattr Demo.env 1%positive "format_name" st).1 = inr (VStr "jpeg") ∧
  (py_getattr Demo.env 1%positive "original_format" st).1 = inr (VStr "jpeg").
Proof. vm_compute. repeat split; reflexivity. Qed.

(** [TestOpenImage.test_raises_error_on_invalid_header] *)
Example test_raises_error_on_invalid_header :
  Image_open Demo.env Image (VBytes Demo.not_an_image) Demo.empty_state
  = (inl (mkExn UnrecognisedImageFormatError "Unknown image format"),
     Demo.empty_state).
Proof. vm_compute. reflexivity. Qed.

(** [TestSaveImage.test_save_as_jpeg] *)
Example test_save_as_jpeg :
  calls (Image_save Demo.env 1%positive "jpeg" (VStr "outfile") Demo.mocked).2
  = [mkCall "mock" [VStr "outfile"] []].
Proof. vm_compute. reflexivity. Qed.

(** [TestSaveImage.test_save_as_foo] *)
Example test_save_as_foo :
  ∃ msg,
    Image_save Demo.env 1%positive "foo" (VStr "outfile") Demo.mocked
    = (inl (mkExn ValueError msg), Demo.mocked) ∧
    calls Demo.mocked = [].
Proof. eexists. split; vm_compute; reflexivity. Qed.

End Tests.

(* ===================================================================== *)
(** ** The stated properties *)
(* ===================================================================== *)


(** C1. When some node type implementing the operation is reachable from the
    queried node type through registered converters, [find] answers with a
    path of registered converters from the node type to an implementing node
    type whose total cost no other such path undercuts, and asking again
    gives the same path and cost. *)
Theorem find_lowest_cost_and_repeatable
    (reg : Registry.t) (node_type : ImageClass) (name : string) :
  Registry.well_formed reg →
  Registry.reachable reg node_type name →
  ∃ r reg',
    Registry.find reg node_type name = (inr r, reg') ∧
    Registry.optimal reg node_type name r ∧
    Registry.find reg' node_type name = (inr r, reg') ∧
    Registry.well_formed reg'.
Proof.
  intros Hwf Hreach. pose proof Hwf as [Hcost Hcache].
  destruct (RegistryFacts.resolve_reachable reg node_type name Hcost Hreach)
    as (r & Hres & Hopt).
  destruct (RegistryFacts.find_answer reg node_type name Hcache)
    as (reg' & Hfind & Hcached).
  rewrite Hres in Hfind, Hcached.
  exists r, reg'. split; [done|]. split; [done|]. split.
  - unfold Registry.find. by rewrite Hcached.
  - replace reg' with (Registry.find reg node_type name).2 by (by rewrite Hfind).
    by apply RegistryFacts.find_well_formed.
Qed.

Lemma find_lowest_cost_and_repeatable_witness :
  Registry.well_formed Demo.registry ∧
  Registry.reachable Demo.registry JPEGImageFile "resize" ∧
  ∃ r reg',
    Registry.find Demo.registry JPEGImageFile "resize" = (inr r, reg') ∧
    Registry.optimal Demo.registry JPEGImageFile "resize" r ∧
    Registry.find reg' JPEGImageFile "resize" = (inr r, reg') ∧
    Registry.well_formed reg'.
Proof.
  assert (Hwf : Registry.well_formed Demo.registry).
  { apply (RegistryFacts.register_all_well_formed
             Demo.registered_converters Demo.registered_operations).
    vm_compute. reflexivity. }
  assert (Hreach : Registry.reachable Demo.registry JPEGImageFile "resize").
  { exists [Registry.mkEdge JPEGImageFile (PluginClass "PillowImage") 100 "PillowImage.open"],
           (PluginClass "PillowImage").
    split.
    - apply (Registry.walk_cons _
               (Registry.mkEdge JPEGImageFile (PluginClass "PillowImage") 100 "PillowImage.open")).
      + vm_compute Registry.converters. apply list_elem_of_here.
      + apply Registry.walk_nil.
    - exists "PillowImage.resize". vm_compute. reflexivity. }
  split; [exact Hwf|]. split; [exact Hreach|].
  exact (find_lowest_cost_and_repeatable Demo.registry JPEGImageFile "resize" Hwf Hreach).
Defined.

Import Py Willow.

(** C2. When the registry resolves the capability for the handle's class to
    an operation and a conversion path, [__getattr__] hands back the closure
    for them, and calling it with positional and keyword arguments, in any
    state in which each converter returns a handle, calls the converters of
    the path in order, each on the handle returned by the one before it and
    the first on the original handle, then calls the operation on the last
    handle followed by the caller's arguments; the outcome of that call is
    the outcome of the request. *)
Theorem getattr_runs_conversion_path
    (env : Env) (st : State) (self : loc) (o : Obj) (attr : string)
    (operation : Func) (c : Val) (conversion_path : list (Func * Val)) (cost : Val) :
  heap (world st) !! self = Some o →
  find_operation env (ob_type o) attr = inr (operation, c, conversion_path, cost) →
  Image___getattr__ env self attr st
  = (inr (VWrapper operation conversion_path self), st) ∧
  ∀ args kwargs st1 cs image w1,
    converts env (world st1) (VRef self) (conversion_path.*1) cs image w1 →
    py_call env (VWrapper operation conversion_path self) args kwargs st1
    = ((call_function env operation (image :: args) kwargs w1).1,
       mkState (call_function env operation (image :: args) kwargs w1).2
               (calls st1 ++ cs ++ [mkCall operation (image :: args) kwargs])).
Proof.
  intros Hself Hfind. split.
  - by eapply WillowFacts.Image___getattr___resolved.
  - intros args kwargs st1 cs image w1 Hc. simpl.
    by apply WillowFacts.wrapper_converts.
Qed.

Lemma getattr_runs_conversion_path_witness :
  heap (world Demo.jpeg_opened) !! 1%positive
  = Some (mkObj JPEGImageFile (<["f" := VBytes Demo.jpeg_header]> ∅)) ∧
  find_operation Demo.env JPEGImageFile "resize"
  = inr ("PillowImage.resize", VClass (PluginClass "PillowImage"),
         Demo.resize_path, VInt 21) ∧
  (∃ cs image w1,
     converts Demo.env (world Demo.jpeg_opened) (VRef 1%positive)
              (Demo.resize_path.*1) cs image w1 ∧
     callee <$> cs = ["WandImage.open"; "WandImage.to_buffer_rgb";
                      "PillowImage.from_buffer_rgb"]) ∧
  Image___getattr__ Demo.env 1%positive "resize" Demo.jpeg_opened
  = (inr (VWrapper "PillowImage.resize" Demo.resize_path 1%positive),
     Demo.jpeg_opened) ∧
  ∀ args kwargs st1 cs image w1,
    converts Demo.env (world st1) (VRef 1%positive) (Demo.resize_path.*1)
             cs image w1 →
    py_call Demo.env (VWrapper "PillowImage.resize" Demo.resize_path 1%positive)
            args kwargs st1
    = ((call_function Demo.env "PillowImage.resize" (image :: args) kwargs w1).1,
       mkState (call_function Demo.env "PillowImage.resize" (image :: args) kwargs w1).2
               (calls st1 ++ cs ++ [mkCall "PillowImage.resize" (image :: args) kwargs])).
Proof.
  assert (heap (world Demo.jpeg_opened) !! 1%positive
          = Some (mkObj JPEGImageFile (<["f" := VBytes Demo.jpeg_header]> ∅)))
    as Hself by (vm_compute; reflexivity).
  assert (find_operation Demo.env JPEGImageFile "resize"
          = inr ("PillowImage.resize", VClass (PluginClass "PillowImage"),
                 Demo.resize_path, VInt 21))
    as Hfind by (vm_compute; reflexivity).
  split; [exact Hself|]. split; [exact Hfind|]. split.
  { do 3 eexists. split.
    - repeat (eapply converts_step; [vm_compute; reflexivity|]).
      apply converts_done.
    - reflexivity. }
  exact (getattr_runs_conversion_path Demo.env Demo.jpeg_opened 1%positive
           _ "resize" _ _ _ _ Hself Hfind).
Defined.

(** C3. When the registry's resolution for the handle's class and the
    capability name fails with a [LookupError], the request fails with an
    [AttributeError]; nothing is returned, no function is called and the
    state, the handle included, is as it was. *)
Theorem getattr_unresolvable_raises_AttributeError
    (env : Env) (st : State) (self : loc) (o : Obj) (attr : string) (e : Exn) :
  heap (world st) !! self = Some o →
  find_operation env (ob_type o) attr = inl e →
  isinstance e LookupError = true →
  Image___getattr__ env self attr st
  = (inl (mkExn AttributeError
            (repr_str (class_name (ob_type o)) +:+ " object has no attribute "
             +:+ repr_str attr)), st).
Proof.
  intros Hself Hfind Hlookup. unfold Image___getattr__, bind.
  by rewrite (WillowFacts.type_of_live _ _ _ Hself), Hfind, Hlookup.
Qed.

Lemma getattr_unresolvable_raises_AttributeError_witness :
  heap (world Demo.jpeg_opened) !! 1%positive
  = Some (mkObj JPEGImageFile (<["f" := VBytes Demo.jpeg_header]> ∅)) ∧
  find_operation Demo.env JPEGImageFile "rotate"
  = inl (mkExn (UserError "OperationNotFoundError" LookupError) "no path to rotate") ∧
  isinstance (mkExn (UserError "OperationNotFoundError" LookupError) "no path to rotate")
             LookupError = true ∧
  Image___getattr__ Demo.env 1%positive "rotate" Demo.jpeg_opened
  = (inl (mkExn AttributeError "'JPEGImageFile' object has no attribute 'rotate'"),
     Demo.jpeg_opened).
Proof.
  assert (heap (world Demo.jpeg_opened) !! 1%positive
          = Some (mkObj JPEGImageFile (<["f" := VBytes Demo.jpeg_header]> ∅)))
    as Hself by (vm_compute; reflexivity).
  assert (find_operation Demo.env JPEGImageFile "rotate"
          = inl (mkExn (UserError "OperationNotFoundError" LookupError)
                       "no path to rotate"))
    as Hfind by (vm_compute; reflexivity).
  assert (isinstance (mkExn (UserError "OperationNotFoundError" LookupError)
                            "no path to rotate") LookupError = true)
    as Hlookup by (vm_compute; reflexivity).
  split; [exact Hself|]. split; [exact Hfind|]. split; [exact Hlookup|].
  exact (getattr_unresolvable_raises_AttributeError Demo.env Demo.jpeg_opened
           1%positive _ "rotate" _ Hself Hfind Hlookup).
Defined.

(** C4. [Image.open] raises [UnrecognisedImageFormatError], leaving the state
    as it was, when the signature detector recognises nothing and when it
    returns a format that has no entry in [INITIAL_IMAGE_CLASSES]; it raises
    in no other case: for a format with an entry it returns a new instance
    of the mapped class built from the byte source. *)
Theorem open_raises_exactly_when_unrecognised_or_unmapped
    (env : Env) (cls : ImageClass) (f : Val) (st : State) :
  ((guess_extension env f = None ∨
    ∃ t, guess_extension env f = Some t ∧ INITIAL_IMAGE_CLASSES !! t = None) →
   ∃ msg, Image_open env cls f st
          = (inl (mkExn UnrecognisedImageFormatError msg), st)) ∧
  ((∃ e st', Image_open env cls f st = (inl e, st')) →
   guess_extension env f = None ∨
   ∃ t, guess_extension env f = Some t ∧ INITIAL_IMAGE_CLASSES !! t = None) ∧
  (∀ t c, guess_extension env f = Some t → INITIAL_IMAGE_CLASSES !! t = Some c →
          ∃ l, heap (world st) !! l = None ∧
               Image_open env cls f st
               = (inr (VRef l), stored l (mkObj c (<["f" := f]> ∅)) st)).
Proof.
  split; [|split].
  - intros Hcase. apply WillowFacts.Image_open_unmapped.
    destruct Hcase as [->|(t & -> & Ht)]; [done|by simpl].
  - intros (e & st' & Hraise).
    destruct (guess_extension env f) as [t|] eqn:Hg; [|by left].
    right. exists t. split; [done|].
    destruct (INITIAL_IMAGE_CLASSES !! t) as [c|] eqn:Ht; [|done].
    destruct (WillowFacts.Image_open_mapped env cls f st t c Hg Ht)
      as (l & _ & Hopen).
    rewrite Hopen in Hraise. discriminate.
  - intros t c Hg Ht. by apply (WillowFacts.Image_open_mapped env cls f st t c).
Qed.

(** C5. With the signature detector, opening a byte source that begins with
    the PNG signature gives a handle whose [format_name] is ["png"], one that
    begins with the JFIF header gives ["jpeg"], one that begins with [GIF89a]
    gives ["gif"]; and opening any byte source whose leading bytes match no
    signature of the table raises [UnrecognisedImageFormatError], leaving
    the state as it was; the bytes of [Not an image] are such a source. *)
Theorem open_recognises_png_jpeg_gif_headers
    (find_op : ImageClass → string → Exn + (Func * Val * list (Func * Val) * Val))
    (call : Func → list Val → list (string * Val) → World → (Exn + Val) * World)
    (plugins : string → string → option (Val + Func))
    (rest : list Byte.byte) (st : State) :
  (∃ l st1,
     Image_open (Demo.sniffing_env find_op call plugins) Image
                (VBytes (Demo.png_header ++ rest)) st = (inr (VRef l), st1) ∧
     (ob_type <$> heap (world st1) !! l) = Some PNGImageFile ∧
     py_getattr (Demo.sniffing_env find_op call plugins) l "format_name" st1
     = (inr (VStr "png"), st1)) ∧
  (∃ l st1,
     Image_open (Demo.sniffing_env find_op call plugins) Image
                (VBytes (Demo.jpeg_header ++ rest)) st = (inr (VRef l), st1) ∧
     (ob_type <$> heap (world st1) !! l) = Some JPEGImageFile ∧
     py_getattr (Demo.sniffing_env find_op call plugins) l "format_name" st1
     = (inr (VStr "jpeg"), st1)) ∧
  (∃ l st1,
     Image_open (Demo.sniffing_env find_op call plugins) Image
                (VBytes (Demo.gif_header ++ rest)) st = (inr (VRef l), st1) ∧
     (ob_type <$> heap (world st1) !! l) = Some GIFImageFile ∧
     py_getattr (Demo.sniffing_env find_op call plugins) l "format_name" st1
     = (inr (VStr "gif"), st1)) ∧
  (∀ bs,
     (∀ sig tag, (sig, tag) ∈ Filetype.signatures →
                 Filetype.matches sig (take Filetype.window_size bs) = false) →
     Filetype.sniff bs = None) ∧
  (∀ bs,
     Filetype.sniff bs = None →
     Image_open (Demo.sniffing_env find_op call plugins) Image (VBytes bs) st
     = (inl (mkExn UnrecognisedImageFormatError "Unknown image format"), st)) ∧
  (∀ sig tag, (sig, tag) ∈ Filetype.signatures →
              Filetype.matches sig (take Filetype.window_size Demo.not_an_image)
              = false) ∧
  (∃ msg,
     Image_open (Demo.sniffing_env find_op call plugins) Image
                (VBytes Demo.not_an_image) st
     = (inl (mkExn UnrecognisedImageFormatError msg), st)).
Proof.
  set (env := Demo.sniffing_env find_op call plugins).
  assert (∀ bs t c v,
            Filetype.sniff bs = Some t → INITIAL_IMAGE_CLASSES !! t = Some c →
            class_lookup env c "format_name" = Some (CData v) →
            ∃ l st1, Image_open env Image (VBytes bs) st = (inr (VRef l), st1) ∧
                     (ob_type <$> heap (world st1) !! l) = Some c ∧
                     py_getattr env l "format_name" st1 = (inr v, st1)) as Hopen.
  { intros bs t c v Hs Ht Hv.
    destruct (WillowFacts.Image_open_mapped env Image (VBytes bs) st t c Hs Ht)
      as (l & _ & ->).
    exists l, (stored l (mkObj c (<["f" := VBytes bs]> ∅)) st).
    split; [done|]. rewrite WillowFacts.stored_lookup. split; [done|].
    eapply WillowFacts.py_getattr_class_data;
      [apply WillowFacts.stored_lookup|by simpl|done]. }
  split; [|split; [|split; [|split; [|split; [|split]]]]].
  - apply (Hopen _ "png" PNGImageFile); vm_compute; reflexivity.
  - apply (Hopen _ "jpg" JPEGImageFile); vm_compute; reflexivity.
  - apply (Hopen _ "gif" GIFImageFile); vm_compute; reflexivity.
  - intros bs Hnone. by apply FiletypeFacts.sniff_None.
  - intros bs Hnone. unfold Image_open. simpl. by rewrite Hnone.
  - apply FiletypeFacts.sniff_None. vm_compute. reflexivity.
  - apply WillowFacts.Image_open_unmapped. vm_compute. reflexivity.
Qed.

(** C6. For a format name outside [jpeg, png, gif, bmp, tiff, webp],
    [save] raises [ValueError] and the state is as it was: no attribute of
    the handle is looked up and no function is called. *)
Theorem save_rejects_unknown_format
    (env : Env) (self : loc) (image_format : string) (output : Val) (st : State) :
  image_format ∉ save_formats →
  Image_save env self image_format output st
  = (inl (mkExn ValueError ("Unknown image format: " +:+ image_format)), st).
Proof.
  intros Hfmt. unfold Image_save. by rewrite bool_decide_eq_true_2.
Qed.

Lemma save_rejects_unknown_format_witness :
  ("foo" ∉ save_formats) ∧
  Image_save Demo.env 1%positive "foo" (VStr "outfile") Demo.jpeg_opened
  = (inl (mkExn ValueError "Unknown image format: foo"), Demo.jpeg_opened).
Proof.
  assert ("foo" ∉ save_formats) as Hfmt.
  { apply (bool_decide_unpack _). vm_compute. exact I. }
  split; [exact Hfmt|].
  exact (save_rejects_unknown_format Demo.env 1%positive "foo" (VStr "outfile")
           Demo.jpeg_opened Hfmt).
Defined.

(** C7. For a format name of the supported set, [save] asks the handle for
    the attribute [save_as_] followed by the format name, as any other
    capability request does, and calls what it gets once, with [output] as
    the only argument, returning the outcome of that call. Whatever the
    handle: when the request fails, [save] fails with the same exception;
    when the attribute is a function, it is called exactly once with
    [output]; when it is a bound method, as for a class that defines the
    capability as a method, the method's function is called exactly once
    with the receiver and [output]; when it is the closure of
    [__getattr__], as for a capability resolved by the registry, and the
    converters of the path return, the operation is called exactly once,
    after the converters, on the converted handle and [output]; when it is
    a class, the class is called with [output]; when it is a value that
    cannot be called, [save] raises [TypeError] and nothing is called. *)
Theorem save_requests_save_as_capability
    (env : Env) (self : loc) (image_format : string) (output : Val) (st : State) :
  image_format ∈ save_formats →
  Image_save env self image_format output st
  = (let* f := py_getattr env self ("save_as_" +:+ image_format) in
     py_call env f [output] []) st ∧
  (∀ g st1,
     py_getattr env self ("save_as_" +:+ image_format) st = (inr (VFunc g), st1) →
     Image_save env self image_format output st
     = ((call_function env g [output] [] (world st1)).1,
        mkState (call_function env g [output] [] (world st1)).2
                (calls st1 ++ [mkCall g [output] []]))) ∧
  (∀ o operation c conversion_path cost cs image w1,
     heap (world st) !! self = Some o →
     ob_dict o !! ("save_as_" +:+ image_format) = None →
     class_lookup env (ob_type o) ("save_as_" +:+ image_format) = None →
     find_operation env (ob_type o) ("save_as_" +:+ image_format)
     = inr (operation, c, conversion_path, cost) →
     converts env (world st) (VRef self) (conversion_path.*1) cs image w1 →
     Image_save env self image_format output st
     = ((call_function env operation [image; output] [] w1).1,
        mkState (call_function env operation [image; output] [] w1).2
                (calls st ++ cs ++ [mkCall operation [image; output] []]))) ∧
  (∀ e st1,
     py_getattr env self ("save_as_" +:+ image_format) st = (inl e, st1) →
     Image_save env self image_format output st = (inl e, st1)) ∧
  (∀ g receiver st1,
     py_getattr env self ("save_as_" +:+ image_format) st
     = (inr (VBound g receiver), st1) →
     Image_save env self image_format output st
     = ((call_function env g [receiver; output] [] (world st1)).1,
        mkState (call_function env g [receiver; output] [] (world st1)).2
                (calls st1 ++ [mkCall g [receiver; output] []]))) ∧
  (∀ o g,
     heap (world st) !! self = Some o →
     ob_dict o !! ("save_as_" +:+ image_format) = None →
     class_lookup env (ob_type o) ("save_as_" +:+ image_format)
     = Some (CFunction g) →
     Image_save env self image_format output st
     = ((call_function env g [VRef self; output] [] (world st)).1,
        mkState (call_function env g [VRef self; output] [] (world st)).2
                (calls st ++ [mkCall g [VRef self; output] []]))) ∧
  (∀ operation conversion_path self' st1 cs image w1,
     py_getattr env self ("save_as_" +:+ image_format) st
     = (inr (VWrapper operation conversion_path self'), st1) →
     converts env (world st1) (VRef self') (conversion_path.*1) cs image w1 →
     Image_save env self image_format output st
     = ((call_function env operation [image; output] [] w1).1,
        mkState (call_function env operation [image; output] [] w1).2
                (calls st1 ++ cs ++ [mkCall operation [image; output] []]))) ∧
  (∀ c st1,
     py_getattr env self ("save_as_" +:+ image_format) st = (inr (VClass c), st1) →
     Image_save env self image_format output st = instantiate env c [output] st1) ∧
  (∀ v st1,
     py_getattr env self ("save_as_" +:+ image_format) st = (inr v, st1) →
     Attributes.not_callable st1 v →
     Image_save env self image_format output st
     = (inl (mkExn TypeError "object is not callable"), st1)).
Proof.
  intros Hfmt.
  assert (Image_save env self image_format output st
          = (let* f := py_getattr env self ("save_as_" +:+ image_format) in
             py_call env f [output] []) st) as Hsave.
  { unfold Image_save. by rewrite bool_decide_eq_false_2 by (by intros []). }
  split; [done|]. split; [|split; [|split; [|split; [|split; [|split; [|split]]]]]].
  - intros g st1 Hget. rewrite Hsave. unfold bind. rewrite Hget. simpl.
    unfold call_logged. by destruct (call_function env g [output] [] (world st1)).
  - intros o operation c conversion_path cost cs image w1
           Hself Hdict Hclass Hfind Hconv.
    rewrite Hsave. unfold bind.
    rewrite (WillowFacts.py_getattr_fallback env self o _ st Hself Hdict Hclass).
    rewrite (WillowFacts.Image___getattr___resolved env self o _ _ _ _ _ st Hself Hfind).
    simpl. by apply WillowFacts.wrapper_converts.
  - intros e st1 Hget. rewrite Hsave. unfold bind. by rewrite Hget.
  - intros g receiver st1 Hget. rewrite Hsave. unfold bind. rewrite Hget. simpl.
    unfold call_logged.
    by destruct (call_function env g [receiver; output] [] (world st1)).
  - intros o g Hself Hdict Hclass. rewrite Hsave. unfold bind.
    rewrite (WillowFacts.py_getattr_method env self o _ g st Hself Hdict Hclass).
    simpl. unfold call_logged.
    by destruct (call_function env g [VRef self; output] [] (world st)).
  - intros operation conversion_path self' st1 cs image w1 Hget Hconv.
    rewrite Hsave. unfold bind. rewrite Hget. simpl.
    by apply WillowFacts.wrapper_converts.
  - intros c st1 Hget. rewrite Hsave. unfold bind. by rewrite Hget.
  - intros v st1 Hget Hnot. rewrite Hsave. unfold bind. rewrite Hget.
    by destruct v.
Qed.

Lemma save_requests_save_as_capability_witness :
  "jpeg" ∈ save_formats ∧
  Image_save Demo.env 1%positive "jpeg" (VStr "outfile") Demo.jpeg_opened
  = (let* f := py_getattr Demo.env 1%positive ("save_as_" +:+ "jpeg") in
     py_call Demo.env f [VStr "outfile"] []) Demo.jpeg_opened ∧
  (callee <$> calls (Image_save Demo.env 1%positive "jpeg" (VStr "outfile")
                       Demo.jpeg_opened).2)
  = ["WandImage.open"; "WandImage.to_buffer_rgb"; "PillowImage.from_buffer_rgb";
     "PillowImage.save_as_jpeg"] ∧
  heap (world Backend.pillow_loaded) !! 1%positive
  = Some (mkObj (PluginClass "PillowImage") ∅) ∧
  (∅ : gmap string Val) !! ("save_as_" +:+ "jpeg") = None ∧
  class_lookup Backend.env (PluginClass "PillowImage") ("save_as_" +:+ "jpeg")
  = Some (CFunction "PillowImage.save_as_jpeg") ∧
  Image_save Backend.env 1%positive "jpeg" (VStr "outfile") Backend.pillow_loaded
  = (inr (VTuple [VStr "PillowImage.save_as_jpeg"; VRef 1%positive; VStr "outfile"]),
     mkState (world Backend.pillow_loaded)
             [mkCall "PillowImage.save_as_jpeg" [VRef 1%positive; VStr "outfile"] []]).
Proof.
  assert ("jpeg" ∈ save_formats) as Hfmt.
  { apply (bool_decide_unpack _). vm_compute. exact I. }
  assert (heap (world Backend.pillow_loaded) !! 1%positive
          = Some (mkObj (PluginClass "PillowImage") ∅))
    as Hself by (vm_compute; reflexivity).
  assert ((∅ : gmap string Val) !! ("save_as_" +:+ "jpeg") = None)
    as Hdict by (vm_compute; reflexivity).
  assert (class_lookup Backend.env (PluginClass "PillowImage") ("save_as_" +:+ "jpeg")
          = Some (CFunction "PillowImage.save_as_jpeg"))
    as Hclass by (vm_compute; reflexivity).
  split; [exact Hfmt|]. split.
  - exact (proj1 (save_requests_save_as_capability Demo.env 1%positive "jpeg"
                    (VStr "outfile") Demo.jpeg_opened Hfmt)).
  - split; [vm_compute; reflexivity|].
    split; [exact Hself|]. split; [exact Hdict|]. split; [exact Hclass|].
    pose proof (save_requests_save_as_capability Backend.env 1%positive "jpeg"
                  (VStr "outfile") Backend.pillow_loaded Hfmt)
      as (_ & _ & _ & _ & _ & Hmethod & _).
    exact (Hmethod _ _ Hself Hdict Hclass).
Defined.

(** C8. The operations of the buffer classes do not change the handle they
    are applied to. A buffer built from a size and data holds exactly these
    two fields, [get_size] returns that size, and the state after the call,
    the fields of the handle included, is the state before it; [has_alpha]
    and [has_animation] of [RGBImageBuffer] and [RGBAImageBuffer] leave the
    state as it was as well. *)
Theorem buffer_operations_leave_handle_unchanged
    (env : Env) (c : ImageClass) (size data : Val) (st : State) :
  c ∈ image_buffer_classes →
  (∃ l st1,
     instantiate env c [size; data] st = (inr (VRef l), st1) ∧
     heap (world st1) !! l
     = Some (mkObj c (<["data" := data]> (<["size" := size]> ∅))) ∧
     ImageBuffer_get_size env l st1 = (inr size, st1)) ∧
  (∀ self st',
     (RGBImageBuffer_has_alpha self st').2 = st' ∧
     (RGBImageBuffer_has_animation self st').2 = st' ∧
     (RGBAImageBuffer_has_alpha self st').2 = st' ∧
     (RGBAImageBuffer_has_animation self st').2 = st').
Proof.
  intros Hc. split; [|done].
  destruct (WillowFacts.instantiate_buffer env c size data st Hc) as (l & _ & ->).
  eexists l, _. split; [done|].
  split; [apply WillowFacts.stored_lookup|].
  unfold ImageBuffer_get_size.
  eapply WillowFacts.py_getattr_instance.
  - apply WillowFacts.stored_lookup.
  - simpl. by rewrite lookup_insert_ne, lookup_insert_eq.
  - intros g. simpl. by rewrite WillowFacts.class_lookup_size.
Qed.

Lemma buffer_operations_leave_handle_unchanged_witness :
  RGBAImageBuffer ∈ image_buffer_classes ∧
  (∃ l st1,
     instantiate Demo.env RGBAImageBuffer
                 [VTuple [VInt 768; VInt 512]; VBytes []] Demo.jpeg_opened
     = (inr (VRef l), st1) ∧
     heap (world st1) !! l
     = Some (mkObj RGBAImageBuffer
                   (<["data" := VBytes []]> (<["size" := VTuple [VInt 768; VInt 512]]> ∅))) ∧
     ImageBuffer_get_size Demo.env l st1
     = (inr (VTuple [VInt 768; VInt 512]), st1)) ∧
  (∀ self st',
     (RGBImageBuffer_has_alpha self st').2 = st' ∧
     (RGBImageBuffer_has_animation self st').2 = st' ∧
     (RGBAImageBuffer_has_alpha self st').2 = st' ∧
     (RGBAImageBuffer_has_animation self st').2 = st').
Proof.
  assert (RGBAImageBuffer ∈ image_buffer_classes) as Hc.
  { apply (bool_decide_unpack _). vm_compute. exact I. }
  split; [exact Hc|].
  exact (buffer_operations_leave_handle_unchanged Demo.env RGBAImageBuffer
           (VTuple [VInt 768; VInt 512]) (VBytes []) Demo.jpeg_opened Hc).
Defined.

(** C9. [has_alpha] returns [False] for an [RGBImageBuffer] and [True] for an
    [RGBAImageBuffer], and [has_animation] returns [False] for both, whatever
    the instance and the state; and on a buffer built from any size and
    data, the attributes [has_alpha] and [has_animation] are these methods
    of the buffer's own class. *)
Theorem has_alpha_and_has_animation_are_constant
    (env : Env) (self : loc) (size data : Val) (st : State) :
  (RGBImageBuffer_has_alpha self st = (inr (VBool false), st) ∧
   RGBAImageBuffer_has_alpha self st = (inr (VBool true), st) ∧
   RGBImageBuffer_has_animation self st = (inr (VBool false), st) ∧
   RGBAImageBuffer_has_animation self st = (inr (VBool false), st)) ∧
  (∃ l st1,
     instantiate env RGBImageBuffer [size; data] st = (inr (VRef l), st1) ∧
     py_getattr env l "has_alpha" st1
     = (inr (VBound "RGBImageBuffer.has_alpha" (VRef l)), st1) ∧
     py_getattr env l "has_animation" st1
     = (inr (VBound "RGBImageBuffer.has_animation" (VRef l)), st1)) ∧
  (∃ l st1,
     instantiate env RGBAImageBuffer [size; data] st = (inr (VRef l), st1) ∧
     py_getattr env l "has_alpha" st1
     = (inr (VBound "RGBAImageBuffer.has_alpha" (VRef l)), st1) ∧
     py_getattr env l "has_animation" st1
     = (inr (VBound "RGBAImageBuffer.has_animation" (VRef l)), st1)).
Proof.
  split; [done|].
  assert (∀ c, c ∈ image_buffer_classes →
            ∀ f g, class_lookup env c "has_alpha" = Some (CFunction f) →
                   class_lookup env c "has_animation" = Some (CFunction g) →
            ∃ l st1, instantiate env c [size; data] st = (inr (VRef l), st1) ∧
                     py_getattr env l "has_alpha" st1 = (inr (VBound f (VRef l)), st1) ∧
                     py_getattr env l "has_animation" st1
                     = (inr (VBound g (VRef l)), st1)) as Hbuf.
  { intros c Hc f g Hf Hg.
    destruct (WillowFacts.instantiate_buffer env c size data st Hc) as (l & _ & ->).
    eexists l, _. split; [done|]. split.
    - eapply WillowFacts.py_getattr_method;
        [apply WillowFacts.stored_lookup|by simpl|done].
    - eapply WillowFacts.py_getattr_method;
        [apply WillowFacts.stored_lookup|by simpl|done]. }
  split.
  - apply Hbuf; [apply (bool_decide_unpack _); vm_compute; exact I|vm_compute; reflexivity..].
  - apply Hbuf; [apply (bool_decide_unpack _); vm_compute; exact I|vm_compute; reflexivity..].
Qed.

(** C10. On an instance of [ImageFile] or of one of its six subclasses,
    reading [original_format] returns the value that reading [format_name]
    returns; it also issues the deprecation warning, which is the only
    difference in the resulting state. *)
Theorem original_format_returns_format_name
    (env : Env) (self : loc) (o : Obj) (st : State) :
  heap (world st) !! self = Some o →
  ob_type o ∈ image_file_classes →
  ∃ v,
    py_getattr env self "format_name" st = (inr v, st) ∧
    py_getattr env self "original_format" st
    = (inr v,
       warned "Image.original_format has been renamed to Image.format_name."
              "RemovedInWillow05Warning" st).
Proof.
  intros Hself Hc.
  destruct (WillowFacts.class_lookup_format_name env _ Hc) as [d Hd].
  destruct (WillowFacts.lookup_attr_format_name env self o st Hself Hc)
    as (v & Hv & _).
  exists v. split.
  - unfold py_getattr, bind.
    by rewrite (WillowFacts.type_of_live _ _ _ Hself), Hd.
  - unfold py_getattr, bind.
    rewrite (WillowFacts.type_of_live _ _ _ Hself).
    rewrite (WillowFacts.class_lookup_original_format env _ Hc).
    unfold ImageFile_original_format, bind, warnings_warn.
    destruct (WillowFacts.lookup_attr_format_name env self o
                (warned "Image.original_format has been renamed to Image.format_name."
                        "RemovedInWillow05Warning" st) Hself Hc)
      as (v' & Hv' & _).
    unfold warned in *. rewrite Hv'. f_equal. f_equal.
    unfold lookup_attr in Hv, Hv'. simpl in Hv'. rewrite Hself in Hv, Hv'.
    destruct (ob_dict o !! "format_name"); [congruence|].
    rewrite Hd in Hv, Hv'. congruence.
Qed.

Lemma original_format_returns_format_name_witness :
  heap (world Demo.jpeg_opened) !! 1%positive
  = Some (mkObj JPEGImageFile (<["f" := VBytes Demo.jpeg_header]> ∅)) ∧
  JPEGImageFile ∈ image_file_classes ∧
  ∃ v,
    py_getattr Demo.env 1%positive "format_name" Demo.jpeg_opened
    = (inr v, Demo.jpeg_opened) ∧
    py_getattr Demo.env 1%positive "original_format" Demo.jpeg_opened
    = (inr v,
       warned "Image.original_format has been renamed to Image.format_name."
              "RemovedInWillow05Warning" Demo.jpeg_opened).
Proof.
  assert (heap (world Demo.jpeg_opened) !! 1%positive
          = Some (mkObj JPEGImageFile (<["f" := VBytes Demo.jpeg_header]> ∅)))
    as Hself by (vm_compute; reflexivity).
  assert (JPEGImageFile ∈ image_file_classes) as Hc.
  { apply (bool_decide_unpack _). vm_compute. exact I. }
  split; [exact Hself|]. split; [exact Hc|].
  exact (original_format_returns_format_name Demo.env 1%positive _
           Demo.jpeg_opened Hself Hc).
Defined.

(* ===================================================================== *)
(** ** Further properties of [willow/image.py] *)
(* ===================================================================== *)

(** X1. An exception of the registry that is no [LookupError] is not turned
    into an [AttributeError]: a request for a name that neither the
    instance nor its classes define fails with that very exception, and the
    state is as it was. *)
Theorem attribute_request_passes_on_registry_failure
    (env : Env) (st : State) (self : loc) (o : Obj) (name : string) (e : Exn) :
  heap (world st) !! self = Some o →
  ob_dict o !! name = None →
  class_lookup env (ob_type o) name = None →
  find_operation env (ob_type o) name = inl e →
  isinstance e LookupError = false →
  py_getattr env self name st = (inl e, st).
Proof.
  intros Hself Hdict Hclass Hfind Hother.
  rewrite (WillowFacts.py_getattr_fallback env self o name st Hself Hdict Hclass).
  unfold Image___getattr__, bind.
  by rewrite (WillowFacts.type_of_live _ _ _ Hself), Hfind, Hother.
Qed.

Lemma attribute_request_passes_on_registry_failure_witness :
  heap (world Demo.jpeg_opened) !! 1%positive
  = Some (mkObj JPEGImageFile (<["f" := VBytes Demo.jpeg_header]> ∅)) ∧
  (<["f" := VBytes Demo.jpeg_header]> ∅ : gmap string Val) !! "resize" = None ∧
  class_lookup Faults.broken_registry_env JPEGImageFile "resize" = None ∧
  find_operation Faults.broken_registry_env JPEGImageFile "resize"
  = inl (mkExn TypeError "registry is broken") ∧
  isinstance (mkExn TypeError "registry is broken") LookupError = false ∧
  py_getattr Faults.broken_registry_env 1%positive "resize" Demo.jpeg_opened
  = (inl (mkExn TypeError "registry is broken"), Demo.jpeg_opened).
Proof.
  assert (heap (world Demo.jpeg_opened) !! 1%positive
          = Some (mkObj JPEGImageFile (<["f" := VBytes Demo.jpeg_header]> ∅)))
    as Hself by (vm_compute; reflexivity).
  assert ((<["f" := VBytes Demo.jpeg_header]> ∅ : gmap string Val) !! "resize" = None)
    as Hdict by (vm_compute; reflexivity).
  assert (class_lookup Faults.broken_registry_env JPEGImageFile "resize" = None)
    as Hclass by (vm_compute; reflexivity).
  assert (find_operation Faults.broken_registry_env JPEGImageFile "resize"
          = inl (mkExn TypeError "registry is broken"))
    as Hfind by reflexivity.
  assert (isinstance (mkExn TypeError "registry is broken") LookupError = false)
    as Hother by (vm_compute; reflexivity).
  split; [exact Hself|]. split; [exact Hdict|]. split; [exact Hclass|].
  split; [exact Hfind|]. split; [exact Hother|].
  exact (attribute_request_passes_on_registry_failure Faults.broken_registry_env
           Demo.jpeg_opened 1%positive _ "resize" _ Hself Hdict Hclass Hfind Hother).
Defined.

(** X2. When a converter of the path raises, the call of the closure ends
    with that exception: the converters before it were called in order, the
    converters after it and the operation are not called. *)
Theorem failing_converter_ends_the_call
    (env : Env) (operation : Func) (before : list (Func * Val))
    (converter : Func) (x : Val) (after : list (Func * Val)) (self : loc)
    (args : list Val) (kwargs : list (string * Val)) (st : State)
    (cs : list Call) (image : Val) (w1 : World) (e : Exn) (w2 : World) :
  converts env (world st) (VRef self) (before.*1) cs image w1 →
  call_function env converter [image] [] w1 = (inl e, w2) →
  py_call env (VWrapper operation (before ++ (converter, x) :: after) self)
          args kwargs st
  = (inl e, mkState w2 (calls st ++ cs ++ [mkCall converter [image] []])).
Proof.
  intros Hconv Hraise. simpl.
  by apply (WillowFacts.wrapper_converter_raises env operation before converter x
              after self args kwargs st cs image w1 e w2).
Qed.

Lemma failing_converter_ends_the_call_witness :
  ∃ cs image w1,
    converts Faults.failing_backend_env (world Demo.jpeg_opened) (VRef 1%positive)
             ([("WandImage.open", VClass (PluginClass "WandImage"))].*1)
             cs image w1 ∧
    call_function Faults.failing_backend_env "WandImage.to_buffer_rgb" [image] [] w1
    = (inl (mkExn IOError "cannot decode"), w1) ∧
    py_call Faults.failing_backend_env
            (VWrapper "PillowImage.resize"
               ([("WandImage.open", VClass (PluginClass "WandImage"))]
                  ++ ("WandImage.to_buffer_rgb", VClass RGBImageBuffer)
                  :: [("PillowImage.from_buffer_rgb", VClass (PluginClass "PillowImage"))])
               1%positive)
            [VInt 100; VInt 50] [] Demo.jpeg_opened
    = (inl (mkExn IOError "cannot decode"),
       mkState w1 (calls Demo.jpeg_opened ++ cs
                   ++ [mkCall "WandImage.to_buffer_rgb" [image] []])).
Proof.
  do 3 eexists.
  match goal with
  | |- ?A ∧ ?B ∧ _ =>
      assert A as Hconv
        by (eapply converts_step; [vm_compute; reflexivity|apply converts_done]);
      assert B as Hraise by reflexivity
  end.
  split; [exact Hconv|]. split; [exact Hraise|].
  exact (failing_converter_ends_the_call Faults.failing_backend_env
           "PillowImage.resize" _ _ _ _ 1%positive [VInt 100; VInt 50] []
           Demo.jpeg_opened _ _ _ _ _ Hconv Hraise).
Defined.

(** X3. [save] with a supported format on a handle for which nothing
    provides the [save_as_] capability (not the instance, not its classes,
    and the registry fails with a [LookupError]) raises the
    [AttributeError] of the attribute request, naming the capability; no
    function is called and the state is as it was. *)
Theorem save_without_capability_raises_AttributeError
    (env : Env) (self : loc) (o : Obj) (image_format : string) (output : Val)
    (st : State) (e : Exn) :
  image_format ∈ save_formats →
  heap (world st) !! self = Some o →
  ob_dict o !! ("save_as_" +:+ image_format) = None →
  class_lookup env (ob_type o) ("save_as_" +:+ image_format) = None →
  find_operation env (ob_type o) ("save_as_" +:+ image_format) = inl e →
  isinstance e LookupError = true →
  Image_save env self image_format output st
  = (inl (mkExn AttributeError
            (repr_str (class_name (ob_type o)) +:+ " object has no attribute "
             +:+ repr_str ("save_as_" +:+ image_format))), st).
Proof.
  intros Hfmt Hself Hdict Hclass Hfind Hlookup. unfold Image_save.
  rewrite bool_decide_eq_false_2 by (by intros []). unfold bind.
  rewrite (WillowFacts.py_getattr_fallback env self o _ st Hself Hdict Hclass).
  unfold Image___getattr__, bind.
  by rewrite (WillowFacts.type_of_live _ _ _ Hself), Hfind, Hlookup.
Qed.

Lemma save_without_capability_raises_AttributeError_witness :
  "png" ∈ save_formats ∧
  heap (world Demo.jpeg_opened) !! 1%positive
  = Some (mkObj JPEGImageFile (<["f" := VBytes Demo.jpeg_header]> ∅)) ∧
  (<["f" := VBytes Demo.jpeg_header]> ∅ : gmap string Val) !! ("save_as_" +:+ "png")
  = None ∧
  class_lookup Demo.env JPEGImageFile ("save_as_" +:+ "png") = None ∧
  find_operation Demo.env JPEGImageFile ("save_as_" +:+ "png")
  = inl (mkExn (UserError "OperationNotFoundError" LookupError)
               "no path to save_as_png") ∧
  isinstance (mkExn (UserError "OperationNotFoundError" LookupError)
                    "no path to save_as_png") LookupError = true ∧
  Image_save Demo.env 1%positive "png" (VStr "outfile") Demo.jpeg_opened
  = (inl (mkExn AttributeError
            "'JPEGImageFile' object has no attribute 'save_as_png'"),
     Demo.jpeg_opened).
Proof.
  assert ("png" ∈ save_formats) as Hfmt.
  { apply (bool_decide_unpack _). vm_compute. exact I. }
  assert (heap (world Demo.jpeg_opened) !! 1%positive
          = Some (mkObj JPEGImageFile (<["f" := VBytes Demo.jpeg_header]> ∅)))
    as Hself by (vm_compute; reflexivity).
  assert ((<["f" := VBytes Demo.jpeg_header]> ∅ : gmap string Val)
            !! ("save_as_" +:+ "png") = None)
    as Hdict by (vm_compute; reflexivity).
  assert (class_lookup Demo.env JPEGImageFile ("save_as_" +:+ "png") = None)
    as Hclass by (vm_compute; reflexivity).
  assert (find_operation Demo.env JPEGImageFile ("save_as_" +:+ "png")
          = inl (mkExn (UserError "OperationNotFoundError" LookupError)
                       "no path to save_as_png"))
    as Hfind by (vm_compute; reflexivity).
  assert (isinstance (mkExn (UserError "OperationNotFoundError" LookupError)
                            "no path to save_as_png") LookupError = true)
    as Hlookup by (vm_compute; reflexivity).
  split; [exact Hfmt|]. split; [exact Hself|]. split; [exact Hdict|].
  split; [exact Hclass|]. split; [exact Hfind|]. split; [exact Hlookup|].
  exact (save_without_capability_raises_AttributeError Demo.env 1%positive _
           "png" (VStr "outfile") Demo.jpeg_opened _
           Hfmt Hself Hdict Hclass Hfind Hlookup).
Defined.



(** X5. The [format_name] of a handle returned by [Image.open] is always one
    of the formats that [save] accepts, so saving an opened image in its own
    format never fails the format validation: it goes on to the request for
    the [save_as_] capability. *)
Theorem opened_handle_names_a_save_format
    (env : Env) (cls : ImageClass) (f : Val) (st : State) (t : string)
    (c : ImageClass) :
  guess_extension env f = Some t →
  INITIAL_IMAGE_CLASSES !! t = Some c →
  ∃ l st1 name,
    Image_open env cls f st = (inr (VRef l), st1) ∧
    py_getattr env l "format_name" st1 = (inr (VStr name), st1) ∧
    name ∈ save_formats ∧
    ∀ output,
      Image_save env l name output st1
      = (let* g := py_getattr env l ("save_as_" +:+ name) in
         py_call env g [output] []) st1.
Proof.
  intros Hg Ht.
  destruct (WillowFacts.Image_open_mapped env cls f st t c Hg Ht) as (l & _ & ->).
  assert (∃ name, class_lookup env c "format_name" = Some (CData (VStr name)) ∧
                  name ∈ save_formats) as (name & Hname & Hfmt).
  { unfold INITIAL_IMAGE_CLASSES in Ht. simpl in Ht.
    repeat (apply lookup_insert_Some in Ht as [[_ <-]|[_ Ht]];
            [eexists; split; [vm_compute; reflexivity|];
             apply (bool_decide_unpack _); vm_compute; exact I|]).
    by rewrite lookup_empty in Ht. }
  exists l, (stored l (mkObj c (<["f" := f]> ∅)) st), name.
  split; [done|]. split; [|split; [done|]].
  - eapply WillowFacts.py_getattr_class_data;
      [apply WillowFacts.stored_lookup|by simpl|done].
  - intros output. unfold Image_save.
    by rewrite bool_decide_eq_false_2 by (by intros []).
Qed.

Lemma opened_handle_names_a_save_format_witness :
  guess_extension Demo.env (VBytes Demo.jpeg_header) = Some "jpg" ∧
  INITIAL_IMAGE_CLASSES !! "jpg" = Some JPEGImageFile ∧
  ∃ l st1 name,
    Image_open Demo.env Image (VBytes Demo.jpeg_header) Demo.empty_state
    = (inr (VRef l), st1) ∧
    py_getattr Demo.env l "format_name" st1 = (inr (VStr name), st1) ∧
    name ∈ save_formats ∧
    ∀ output,
      Image_save Demo.env l name output st1
      = (let* g := py_getattr Demo.env l ("save_as_" +:+ name) in
         py_call Demo.env g [output] []) st1.
Proof.
  assert (guess_extension Demo.env (VBytes Demo.jpeg_header) = Some "jpg")
    as Hg by (vm_compute; reflexivity).
  assert (INITIAL_IMAGE_CLASSES !! "jpg" = Some JPEGImageFile)
    as Ht by (vm_compute; reflexivity).
  split; [exact Hg|]. split; [exact Ht|].
  exact (opened_handle_names_a_save_format Demo.env Image (VBytes Demo.jpeg_header)
           Demo.empty_state "jpg" JPEGImageFile Hg Ht).
Defined.

(** X6. The formats that [save] accepts are exactly the [format_name]s of
    the classes of [INITIAL_IMAGE_CLASSES]: every format that can be saved
    is the format of a class that [open] can return, and the other way
    round. *)
Theorem save_formats_are_the_initial_format_names (env : Env) (name : string) :
  name ∈ save_formats ↔
  ∃ t c, INITIAL_IMAGE_CLASSES !! t = Some c ∧
         class_lookup env c "format_name" = Some (CData (VStr name)).
Proof.
  split.
  - intros Hfmt. unfold save_formats in Hfmt.
    repeat (apply elem_of_cons in Hfmt as [->|Hfmt];
            [first [ by exists "jpg", JPEGImageFile
                   | by exists "png", PNGImageFile
                   | by exists "gif", GIFImageFile
                   | by exists "bmp", BMPImageFile
                   | by exists "tif", TIFFImageFile
                   | by exists "webp", WebPImageFile ]|]).
    by apply elem_of_nil in Hfmt.
  - intros (t & c & Ht & Hname).
    unfold INITIAL_IMAGE_CLASSES in Ht. simpl in Ht.
    repeat (apply lookup_insert_Some in Ht as [[_ <-]|[_ Ht]];
            [vm_compute in Hname; injection Hname as <-;
             apply (bool_decide_unpack _); vm_compute; exact I|]).
    by rewrite lookup_empty in Ht.
Qed.

(** X7. [original_format] is read-only: assigning it on an instance of
    [ImageFile] or of a subclass raises [AttributeError] and changes
    nothing. *)
Theorem original_format_cannot_be_assigned
    (env : Env) (self : loc) (o : Obj) (v : Val) (st : State) :
  heap (world st) !! self = Some o →
  ob_type o ∈ image_file_classes →
  ∃ msg,
    py_setattr env self "original_format" v st
    = (inl (mkExn AttributeError msg), st).
Proof.
  intros Hself Hc. unfold py_setattr, bind.
  rewrite (WillowFacts.type_of_live _ _ _ Hself).
  rewrite (WillowFacts.class_lookup_original_format env _ Hc).
  by eexists.
Qed.

Lemma original_format_cannot_be_assigned_witness :
  heap (world Demo.jpeg_opened) !! 1%positive
  = Some (mkObj JPEGImageFile (<["f" := VBytes Demo.jpeg_header]> ∅)) ∧
  JPEGImageFile ∈ image_file_classes ∧
  ∃ msg,
    py_setattr Demo.env 1%positive "original_format" (VStr "png") Demo.jpeg_opened
    = (inl (mkExn AttributeError msg), Demo.jpeg_opened).
Proof.
  assert (heap (world Demo.jpeg_opened) !! 1%positive
          = Some (mkObj JPEGImageFile (<["f" := VBytes Demo.jpeg_header]> ∅)))
    as Hself by (vm_compute; reflexivity).
  assert (JPEGImageFile ∈ image_file_classes) as Hc.
  { apply (bool_decide_unpack _). vm_compute. exact I. }
  split; [exact Hself|]. split; [exact Hc|].
  exact (original_format_cannot_be_assigned Demo.env 1%positive _ (VStr "png")
           Demo.jpeg_opened Hself Hc).
Defined.

(** X8. [format_name] can be assigned on an instance of [ImageFile] or of a
    subclass; afterwards both [format_name] and [original_format] read the
    assigned value, the class attribute being shadowed. *)
Theorem assigned_format_name_is_read_by_both_accessors
    (env : Env) (self : loc) (o : Obj) (v : Val) (st : State) :
  heap (world st) !! self = Some o →
  ob_type o ∈ image_file_classes →
  ∃ st1,
    py_setattr env self "format_name" v st = (inr (), st1) ∧
    py_getattr env self "format_name" st1 = (inr v, st1) ∧
    py_getattr env self "original_format" st1
    = (inr v,
       warned "Image.original_format has been renamed to Image.format_name."
              "RemovedInWillow05Warning" st1).
Proof.
  intros Hself Hc.
  destruct (WillowFacts.class_lookup_format_name env _ Hc) as [d Hd].
  eexists. split.
  { apply AttributeFacts.py_setattr_plain; [done|]. intros g. by rewrite Hd. }
  set (o1 := mkObj (ob_type o) (<["format_name" := v]> (ob_dict o))).
  assert (∀ st2, heap (world st2) !! self = Some o1 →
                 lookup_attr env self "format_name" st2 = (inr v, st2)) as Hread.
  { intros st2 H2. unfold lookup_attr. rewrite H2. simpl.
    by rewrite lookup_insert_eq. }
  split.
  - rewrite WillowFacts.py_getattr_format_name.
    apply Hread, WillowFacts.stored_lookup.
  - unfold py_getattr, bind.
    rewrite (WillowFacts.type_of_live _ o1) by apply WillowFacts.stored_lookup.
    simpl. rewrite (WillowFacts.class_lookup_original_format env _ Hc).
    unfold ImageFile_original_format, bind, warnings_warn.
    fold (warned "Image.original_format has been renamed to Image.format_name."
                 "RemovedInWillow05Warning" (stored self o1 st)).
    rewrite Hread; [done|]. simpl. apply lookup_insert_eq.
Qed.

Lemma assigned_format_name_is_read_by_both_accessors_witness :
  heap (world Demo.jpeg_opened) !! 1%positive
  = Some (mkObj JPEGImageFile (<["f" := VBytes Demo.jpeg_header]> ∅)) ∧
  JPEGImageFile ∈ image_file_classes ∧
  ∃ st1,
    py_setattr Demo.env 1%positive "format_name" (VStr "jpg") Demo.jpeg_opened
    = (inr (), st1) ∧
    py_getattr Demo.env 1%positive "format_name" st1 = (inr (VStr "jpg"), st1) ∧
    py_getattr Demo.env 1%positive "original_format" st1
    = (inr (VStr "jpg"),
       warned "Image.original_format has been renamed to Image.format_name."
              "RemovedInWillow05Warning" st1).
Proof.
  assert (heap (world Demo.jpeg_opened) !! 1%positive
          = Some (mkObj JPEGImageFile (<["f" := VBytes Demo.jpeg_header]> ∅)))
    as Hself by (vm_compute; reflexivity).
  assert (JPEGImageFile ∈ image_file_classes) as Hc.
  { apply (bool_decide_unpack _). vm_compute. exact I. }
  split; [exact Hself|]. split; [exact Hc|].
  exact (assigned_format_name_is_read_by_both_accessors Demo.env 1%positive _
           (VStr "jpg") Demo.jpeg_opened Hself Hc).
Defined.

(** X9. [get_size] reads the [size] attribute as it is now: on a buffer
    instance in any state it returns the value the instance holds for
    [size], leaving the state as it was, and after [size] was assigned it
    returns the assigned value. *)
Theorem get_size_reads_the_current_size
    (env : Env) (self : loc) (o : Obj) (st : State) :
  heap (world st) !! self = Some o →
  ob_type o ∈ image_buffer_classes →
  (∀ v, ob_dict o !! "size" = Some v →
        ImageBuffer_get_size env self st = (inr v, st)) ∧
  (∀ v, ∃ st1, py_setattr env self "size" v st = (inr (), st1) ∧
               ImageBuffer_get_size env self st1 = (inr v, st1)).
Proof.
  intros Hself Hc.
  pose proof (WillowFacts.class_lookup_size env _ Hc) as Hsize.
  split.
  - intros v Hv. unfold ImageBuffer_get_size.
    eapply WillowFacts.py_getattr_instance; [done..|].
    intros g. by rewrite Hsize.
  - intros v. eexists. split.
    + by apply WillowFacts.py_setattr_store.
    + unfold ImageBuffer_get_size.
      eapply WillowFacts.py_getattr_instance.
      * apply WillowFacts.stored_lookup.
      * simpl. apply lookup_insert_eq.
      * intros g. simpl. by rewrite Hsize.
Qed.

Lemma get_size_reads_the_current_size_witness :
  heap (world Faults.small_buffer) !! 1%positive
  = Some (mkObj RGBImageBuffer
                (<["data" := VBytes []]> (<["size" := VTuple [VInt 2; VInt 3]]> ∅))) ∧
  RGBImageBuffer ∈ image_buffer_classes ∧
  ImageBuffer_get_size Demo.env 1%positive Faults.small_buffer
  = (inr (VTuple [VInt 2; VInt 3]), Faults.small_buffer) ∧
  ∃ st1, py_setattr Demo.env 1%positive "size" (VTuple [VInt 4; VInt 6])
                    Faults.small_buffer = (inr (), st1) ∧
         ImageBuffer_get_size Demo.env 1%positive st1
         = (inr (VTuple [VInt 4; VInt 6]), st1).
Proof.
  assert (heap (world Faults.small_buffer) !! 1%positive
          = Some (mkObj RGBImageBuffer
                        (<["data" := VBytes []]>
                           (<["size" := VTuple [VInt 2; VInt 3]]> ∅))))
    as Hself by (vm_compute; reflexivity).
  assert (RGBImageBuffer ∈ image_buffer_classes) as Hc.
  { apply (bool_decide_unpack _). vm_compute. exact I. }
  split; [exact Hself|]. split; [exact Hc|].
  pose proof (get_size_reads_the_current_size Demo.env 1%positive _
                Faults.small_buffer Hself Hc) as [Hread Hassign].
  split.
  - apply Hread. vm_compute. reflexivity.
  - apply Hassign.
Defined.

(** X10. [get_size] is inherited: on a buffer of any of the three buffer
    classes, built from a size and data, the attribute [get_size] is the
    method of [ImageBuffer] bound to the buffer, whatever the registry
    holds. The base class [ImageBuffer] defines neither [has_alpha] nor
    [has_animation] nor [mode]: on its instances these names are asked of
    [__getattr__]. *)
Theorem buffers_inherit_get_size
    (env : Env) (c : ImageClass) (size data : Val) (st : State) :
  c ∈ image_buffer_classes →
  ∃ l st1,
    instantiate env c [size; data] st = (inr (VRef l), st1) ∧
    py_getattr env l "get_size" st1
    = (inr (VBound "ImageBuffer.get_size" (VRef l)), st1) ∧
    (c = ImageBuffer →
     py_getattr env l "has_alpha" st1 = Image___getattr__ env l "has_alpha" st1 ∧
     py_getattr env l "has_animation" st1
     = Image___getattr__ env l "has_animation" st1 ∧
     py_getattr env l "mode" st1 = Image___getattr__ env l "mode" st1).
Proof.
  intros Hc.
  destruct (WillowFacts.instantiate_buffer env c size data st Hc) as (l & _ & ->).
  eexists l, _. split; [done|]. split.
  - eapply WillowFacts.py_getattr_method;
      [apply WillowFacts.stored_lookup|by simpl|].
    simpl. WillowFacts.in_classes Hc; vm_compute; reflexivity.
  - intros ->.
    split; [|split];
      (eapply WillowFacts.py_getattr_fallback;
       [apply WillowFacts.stored_lookup|by simpl|vm_compute; reflexivity]).
Qed.

Lemma buffers_inherit_get_size_witness :
  RGBAImageBuffer ∈ image_buffer_classes ∧
  ∃ l st1,
    instantiate Demo.env RGBAImageBuffer [VTuple [VInt 2; VInt 3]; VBytes []]
                Demo.empty_state = (inr (VRef l), st1) ∧
    py_getattr Demo.env l "get_size" st1
    = (inr (VBound "ImageBuffer.get_size" (VRef l)), st1) ∧
    (RGBAImageBuffer = ImageBuffer →
     py_getattr Demo.env l "has_alpha" st1
     = Image___getattr__ Demo.env l "has_alpha" st1 ∧
     py_getattr Demo.env l "has_animation" st1
     = Image___getattr__ Demo.env l "has_animation" st1 ∧
     py_getattr Demo.env l "mode" st1 = Image___getattr__ Demo.env l "mode" st1).
Proof.
  assert (RGBAImageBuffer ∈ image_buffer_classes) as Hc.
  { apply (bool_decide_unpack _). vm_compute. exact I. }
  split; [exact Hc|].
  exact (buffers_inherit_get_size Demo.env RGBAImageBuffer
           (VTuple [VInt 2; VInt 3]) (VBytes []) Demo.empty_state Hc).
Defined.



(** X12. Nothing is kept between two calls of the closure: each call runs
    the converters of the path again from the original handle. After a
    first call, a second call in the resulting state is recorded as the
    converters once more followed by the operation. *)
Theorem each_call_converts_again
    (env : Env) (operation : Func) (conversion_path : list (Func * Val))
    (self : loc) (args1 args2 : list Val) (kwargs1 kwargs2 : list (string * Val))
    (st : State) (cs1 cs2 : list Call) (image1 image2 : Val) (w1 w2 : World) :
  converts env (world st) (VRef self) (conversion_path.*1) cs1 image1 w1 →
  converts env (call_function env operation (image1 :: args1) kwargs1 w1).2
           (VRef self) (conversion_path.*1) cs2 image2 w2 →
  py_call env (VWrapper operation conversion_path self) args2 kwargs2
          (py_call env (VWrapper operation conversion_path self) args1 kwargs1 st).2
  = ((call_function env operation (image2 :: args2) kwargs2 w2).1,
     mkState (call_function env operation (image2 :: args2) kwargs2 w2).2
             (calls st ++ cs1 ++ [mkCall operation (image1 :: args1) kwargs1]
              ++ cs2 ++ [mkCall operation (image2 :: args2) kwargs2])).
Proof.
  intros Hc1 Hc2. simpl.
  rewrite (WillowFacts.wrapper_converts env operation conversion_path self
             args1 kwargs1 st cs1 image1 w1 Hc1). simpl.
  rewrite (WillowFacts.wrapper_converts env operation conversion_path self
             args2 kwargs2
             (mkState (call_function env operation (image1 :: args1) kwargs1 w1).2
                      (calls st ++ cs1 ++ [mkCall operation (image1 :: args1) kwargs1]))
             cs2 image2 w2 Hc2). simpl.
  by rewrite <-!app_assoc.
Qed.

Lemma each_call_converts_again_witness :
  ∃ cs1 image1 w1 cs2 image2 w2,
    converts Demo.env (world Demo.jpeg_opened) (VRef 1%positive)
             (Demo.resize_path.*1) cs1 image1 w1 ∧
    converts Demo.env
             (call_function Demo.env "PillowImage.resize" [image1; VInt 100] [] w1).2
             (VRef 1%positive) (Demo.resize_path.*1) cs2 image2 w2 ∧
    (callee <$> calls
       (py_call Demo.env (VWrapper "PillowImage.resize" Demo.resize_path 1%positive)
          [VInt 50] []
          (py_call Demo.env (VWrapper "PillowImage.resize" Demo.resize_path 1%positive)
             [VInt 100] [] Demo.jpeg_opened).2).2)
    = (callee <$> cs1) ++ ["PillowImage.resize"] ++ (callee <$> cs2)
      ++ ["PillowImage.resize"].
Proof.
  do 6 eexists.
  match goal with
  | |- ?A ∧ _ =>
      assert A as Hc1
        by (repeat (eapply converts_step; [vm_compute; reflexivity|]);
            apply converts_done)
  end.
  split; [exact Hc1|].
  match goal with
  | |- ?B ∧ _ =>
      assert B as Hc2
        by (repeat (eapply converts_step; [vm_compute; reflexivity|]);
            apply converts_done)
  end.
  split; [exact Hc2|].
  rewrite (each_call_converts_again Demo.env "PillowImage.resize" Demo.resize_path
             1%positive [VInt 100] [VInt 50] [] [] Demo.jpeg_opened
             _ _ _ _ _ _ Hc1 Hc2).
  vm_compute. reflexivity.
Defined.

Import Decorators.

(** X13. The decorators record independently of one another. On a function
    without attributes, any sequence of [operation], [converter_to] and
    [converter_from] decorators returns the function itself and leaves it
    marked as an operation exactly when [operation] was among them, with the
    pair of the last [converter_to] applied (earlier ones are overwritten),
    and with the pairs of all [converter_from] decorators in the order in
    which they were applied, a list of classes contributing one pair per
    class. Nothing else is touched: the attributes of every other function
    are as before, every list that existed keeps its items, and the list
    the function refers to is a new one. *)
Theorem decorators_leave_the_expected_marking
    (ds : list Decorator) (func : Func) (st : FState) :
  func_dict st !! func = None →
  ∃ st',
    decorate ds func st = (inr func, st') ∧
    marked st' func (marks_operation ds) (last_converter_to ds)
           (converter_from_pairs ds) ∧
    (∀ g, g ≠ func → func_dict st' !! g = func_dict st !! g) ∧
    (∀ l items, list_objects st !! l = Some items →
                list_objects st' !! l = Some items) ∧
    (∀ l, func_getattr st' func "_willow_converter_from" = Some (VRef l) →
          list_objects st !! l = None).
Proof.
  intros Hfresh.
  assert (func_getattr st func "_willow_converter_from" = None) as Hnone.
  { unfold func_getattr. by rewrite Hfresh. }
  assert (marked st func false None None) as Hm.
  { unfold marked, func_getattr. by rewrite Hfresh. }
  destruct (DecoratorFacts.decorate_marked ds func st false None None Hm)
    as (st' & Hrun & Hm' & Hframe).
  pose proof (DecoratorFacts.decorate_lists_kept ds func st false None None Hm)
    as (Hkept & Hown & _).
  rewrite Hrun in Hkept, Hown. simpl in Hkept, Hown.
  exists st'. split; [done|]. split; [|split; [done|split]].
  - unfold converter_from_pairs.
    destruct (last_converter_to ds); destruct (from_groups ds); exact Hm'.
  - intros l items Hl. apply Hkept; [done|]. by rewrite Hnone.
  - intros l Hl. destruct (Hown l Hl) as [Hold|?]; [|done].
    by rewrite Hnone in Hold.
Qed.

Lemma decorators_leave_the_expected_marking_witness :
  func_dict Faults.registered_before !! "to_pillow" = None ∧
  ∃ st',
    decorate [DConverterFrom (FromOne (VClass JPEGImageFile)) None;
              DConverterTo (VClass RGBImageBuffer) (Some (VInt 5));
              DOperation;
              DConverterFrom (FromList [VClass PNGImageFile; VClass GIFImageFile])
                             (Some (VInt 10));
              DConverterTo (VClass (PluginClass "PillowImage")) None]
             "to_pillow" Faults.registered_before
    = (inr "to_pillow", st') ∧
    marked st' "to_pillow" true
           (Some (VTuple [VClass (PluginClass "PillowImage"); VNone]))
           (Some [VTuple [VClass JPEGImageFile; VNone];
                  VTuple [VClass PNGImageFile; VInt 10];
                  VTuple [VClass GIFImageFile; VInt 10]]) ∧
    (∀ g, g ≠ "to_pillow" →
          func_dict st' !! g = func_dict Faults.registered_before !! g) ∧
    (∀ l items, list_objects Faults.registered_before !! l = Some items →
                list_objects st' !! l = Some items) ∧
    (∀ l, func_getattr st' "to_pillow" "_willow_converter_from" = Some (VRef l) →
          list_objects Faults.registered_before !! l = None).
Proof.
  assert (func_dict Faults.registered_before !! "to_pillow" = None)
    as Hfresh by (vm_compute; reflexivity).
  split; [exact Hfresh|].
  exact (decorators_leave_the_expected_marking
           [DConverterFrom (FromOne (VClass JPEGImageFile)) None;
            DConverterTo (VClass RGBImageBuffer) (Some (VInt 5));
            DOperation;
            DConverterFrom (FromList [VClass PNGImageFile; VClass GIFImageFile])
                           (Some (VInt 10));
            DConverterTo (VClass (PluginClass "PillowImage")) None]
           "to_pillow" Faults.registered_before Hfresh).
Defined.

(** X14. [converter_from] with a list of classes that is not empty does
    what one [converter_from] per class does, applied in the order of the
    list with the same cost, on a function that has no
    [_willow_converter_from] yet or has its list of pairs. *)
Theorem converter_from_list_is_one_by_one
    (func : Func) (from_classes : list Val) (cost : option Val) (st : FState) :
  from_classes ≠ [] →
  (func_getattr st func "_willow_converter_from" = None ∨
   ∃ l pairs, func_getattr st func "_willow_converter_from" = Some (VRef l) ∧
              list_objects st !! l = Some pairs) →
  Image_converter_from (FromList from_classes) cost func st
  = decorate ((λ sc, DConverterFrom (FromOne sc) cost) <$> from_classes) func st.
Proof.
  intros Hne [Hnone|(l & pairs & Hattr & Hlist)].
  - destruct from_classes as [|sc scs]; [done|].
    rewrite (DecoratorFacts.converter_from_wrapper_first _ _ _ _ Hnone).
    rewrite fmap_cons.
    change (decorate (?d :: ?ds) func st)
      with (match apply_decorator d func st with
            | (inr func', st') => decorate ds func' st'
            | (inl e, st') => (inl e, st')
            end).
    cbn [apply_decorator].
    rewrite (DecoratorFacts.converter_from_wrapper_first _ _ _ _ Hnone).
    rewrite (DecoratorFacts.decorate_singles_listed cost func
               (fresh (dom (list_objects st))) scs _
               (from_pairs (FromOne sc) cost));
      [|apply DecoratorFacts.func_getattr_setattr_eq
       |simpl; apply lookup_insert_eq].
    unfold func_setattr. simpl. by rewrite insert_insert_eq.
  - rewrite (DecoratorFacts.converter_from_wrapper_listed _ _ _ _ _ _ Hattr Hlist).
    by rewrite (DecoratorFacts.decorate_singles_listed cost func l from_classes
                  st pairs Hattr Hlist).
Qed.

Lemma converter_from_list_is_one_by_one_witness :
  [VClass PNGImageFile; VClass GIFImageFile] ≠ [] ∧
  (func_getattr Faults.no_attributes "to_pillow" "_willow_converter_from" = None ∨
   ∃ l pairs,
     func_getattr Faults.no_attributes "to_pillow" "_willow_converter_from"
     = Some (VRef l) ∧
     list_objects Faults.no_attributes !! l = Some pairs) ∧
  Image_converter_from (FromList [VClass PNGImageFile; VClass GIFImageFile])
                       (Some (VInt 10)) "to_pillow" Faults.no_attributes
  = decorate [DConverterFrom (FromOne (VClass PNGImageFile)) (Some (VInt 10));
              DConverterFrom (FromOne (VClass GIFImageFile)) (Some (VInt 10))]
             "to_pillow" Faults.no_attributes.
Proof.
  assert ([VClass PNGImageFile; VClass GIFImageFile] ≠ []) as Hne by discriminate.
  assert (func_getattr Faults.no_attributes "to_pillow" "_willow_converter_from" = None ∨
          ∃ l pairs,
            func_getattr Faults.no_attributes "to_pillow" "_willow_converter_from"
            = Some (VRef l) ∧
            list_objects Faults.no_attributes !! l = Some pairs)
    as Hstate by (left; reflexivity).
  split; [exact Hne|]. split; [exact Hstate|].
  exact (converter_from_list_is_one_by_one "to_pillow"
           [VClass PNGImageFile; VClass GIFImageFile] (Some (VInt 10))
           Faults.no_attributes Hne Hstate).
Defined.

(** X15. [converter_from] with an empty list of classes on a function
    without [_willow_converter_from] registers no pair but is not a no-op:
    it gives the function the attribute, referring to a new, empty list. *)
Theorem converter_from_empty_list_creates_the_attribute
    (func : Func) (cost : option Val) (st : FState) :
  func_getattr st func "_willow_converter_from" = None →
  ∃ l st',
    Image_converter_from (FromList []) cost func st = (inr func, st') ∧
    list_objects st !! l = None ∧
    func_getattr st' func "_willow_converter_from" = Some (VRef l) ∧
    list_objects st' !! l = Some [] ∧
    func_hasattr st' func "_willow_converter_from" = true.
Proof.
  intros Hnone.
  rewrite (DecoratorFacts.converter_from_wrapper_first _ _ _ _ Hnone).
  eexists (fresh (dom (list_objects st))), _. split; [done|].
  split; [apply not_elem_of_dom, is_fresh|].
  split; [apply DecoratorFacts.func_getattr_setattr_eq|].
  split; [simpl; apply lookup_insert_eq|].
  eapply DecoratorFacts.func_hasattr_true, DecoratorFacts.func_getattr_setattr_eq.
Qed.

Lemma converter_from_empty_list_creates_the_attribute_witness :
  func_getattr Faults.no_attributes "to_pillow" "_willow_converter_from" = None ∧
  ∃ l st',
    Image_converter_from (FromList []) None "to_pillow" Faults.no_attributes
    = (inr "to_pillow", st') ∧
    list_objects Faults.no_attributes !! l = None ∧
    func_getattr st' "to_pillow" "_willow_converter_from" = Some (VRef l) ∧
    list_objects st' !! l = Some [] ∧
    func_hasattr st' "to_pillow" "_willow_converter_from" = true.
Proof.
  assert (func_getattr Faults.no_attributes "to_pillow" "_willow_converter_from"
          = None) as Hnone by reflexivity.
  split; [exact Hnone|].
  exact (converter_from_empty_list_creates_the_attribute "to_pillow" None
           Faults.no_attributes Hnone).
Defined.

(** X16. When the function already has a [_willow_converter_from] that is
    no list, [converter_from] raises [AttributeError] instead of replacing
    it, and changes nothing. *)
Theorem converter_from_needs_a_list
    (from_class : FromArg) (cost : option Val) (func : Func) (st : FState) (v : Val) :
  func_getattr st func "_willow_converter_from" = Some v →
  (∀ l, v = VRef l → list_objects st !! l = None) →
  ∃ msg,
    Image_converter_from from_class cost func st
    = (inl (mkExn AttributeError msg), st).
Proof.
  intros Hattr Hnolist. unfold Image_converter_from, converter_from_wrapper.
  rewrite (DecoratorFacts.func_hasattr_true _ _ _ _ Hattr). simpl. rewrite Hattr.
  destruct from_class; destruct v; simpl; try (by eexists);
    rewrite (Hnolist _ eq_refl); by eexists.
Qed.

Lemma converter_from_needs_a_list_witness :
  func_getattr Faults.spoiled "to_pillow" "_willow_converter_from" = Some VNone ∧
  (∀ l, VNone = VRef l → list_objects Faults.spoiled !! l = None) ∧
  ∃ msg,
    Image_converter_from (FromOne (VClass JPEGImageFile)) None "to_pillow"
                         Faults.spoiled
    = (inl (mkExn AttributeError msg), Faults.spoiled).
Proof.
  assert (func_getattr Faults.spoiled "to_pillow" "_willow_converter_from"
          = Some VNone) as Hattr by (vm_compute; reflexivity).
  assert (∀ l, VNone = VRef l → list_objects Faults.spoiled !! l = None)
    as Hnolist by (intros l Hl; discriminate Hl).
  split; [exact Hattr|]. split; [exact Hnolist|].
  exact (converter_from_needs_a_list (FromOne (VClass JPEGImageFile)) None
           "to_pillow" Faults.spoiled VNone Hattr Hnolist).
Defined.
